(** * MailTrap: SMTP ingestion, MIME decomposition and the deletion endpoint

    A shallow embedding of [server.py].  The handler's [handle_DATA], the
    constructor [MailTrapHandler.__init__] and the API function
    [delete_email] are written in a small state-and-exception monad over a
    [World] made of the running handler's in-memory list, the emails file and
    the attachment blobs on disk.  The MIME parser, [html2text] and pathlib's
    path join are library code and are taken as an interface. *)

From Stdlib Require Import ZArith Lia Strings.Byte.
From stdpp Require Import base strings list gmap pretty.

Open Scope Z_scope.

(** ** Python values *)

Definition bytes := list byte.

(** Exceptions raised on the paths of [server.py].  All of them derive from
    Python's [Exception].  An OSError raised by [open] or [os.remove] names
    the file; one raised while writing names none. *)
Inductive exn :=
| UnicodeDecodeError
| UnicodeEncodeError
| AttributeError
| TypeError
| OSError (filename : option string)
| JSONDecodeError
| MessageError
| HTTPException (status_code : Z) (detail : string).

Inductive result (A : Type) :=
| Ok (a : A)
| Raise (e : exn).
Arguments Ok {A} a.
Arguments Raise {A} e.

(** Truthiness of an optional string: [None] and [''] are falsy. *)
Definition truthy (s : option string) : bool :=
  match s with
  | Some (String _ _) => true
  | _ => false
  end.

(** A header value as the parser hands it out: a [str], or an
    [email.header.Header] object when the raw header holds bytes outside
    ASCII.  Either way [text] is what [str(value)] gives. *)
Inductive HeaderValue :=
| Str (s : string)
| Header (s : string).

Definition text (v : HeaderValue) : string :=
  match v with Str s | Header s => s end.

Definition is_str (v : HeaderValue) : bool :=
  match v with Str _ => true | Header _ => false end.

(** [str(x)] for [x] a header value or [None]. *)
Definition str (v : option HeaderValue) : string :=
  match v with
  | Some h => text h
  | None => "None"
  end.

(** Whether a string is made of ASCII characters only. *)
Fixpoint is_ascii (s : string) : bool :=
  match s with
  | EmptyString => true
  | String c rest => (Ascii.N_of_ascii c <? 128)%N && is_ascii rest
  end.

(** [needle in haystack] on strings. *)
Fixpoint contains (needle haystack : string) : bool :=
  String.prefix needle haystack ||
  match haystack with
  | EmptyString => false
  | String _ rest => contains needle rest
  end.

(** [str.lower] on the ASCII range. *)
Definition lower_ascii (c : Ascii.ascii) : Ascii.ascii :=
  let n := Ascii.N_of_ascii c in
  if ((65 <=? n) && (n <=? 90))%N then Ascii.ascii_of_N (n + 32) else c.

Fixpoint lower (s : string) : string :=
  match s with
  | EmptyString => EmptyString
  | String c rest => String (lower_ascii c) (lower rest)
  end.

(** *** [bytes.decode()]: strict UTF-8

    A Python [str] is represented by its UTF-8 encoding, so decoding is
    validation: the well-formed byte sequences of the Unicode standard
    (no overlong forms, no surrogates, nothing above U+10FFFF). *)

Definition in_range (lo hi : N) (b : byte) : bool :=
  ((lo <=? Byte.to_N b) && (Byte.to_N b <=? hi))%N.

Definition cont : byte -> bool := in_range 128 191.

Fixpoint utf8_valid (l : bytes) : bool :=
  match l with
  | [] => true
  | b0 :: l1 =>
    if in_range 0 127 b0 then utf8_valid l1
    else match l1 with
    | [] => false
    | b1 :: l2 =>
      if in_range 194 223 b0 then cont b1 && utf8_valid l2
      else match l2 with
      | [] => false
      | b2 :: l3 =>
        if in_range 224 224 b0 then in_range 160 191 b1 && cont b2 && utf8_valid l3
        else if in_range 237 237 b0 then in_range 128 159 b1 && cont b2 && utf8_valid l3
        else if in_range 225 239 b0 then cont b1 && cont b2 && utf8_valid l3
        else match l3 with
        | [] => false
        | b3 :: l4 =>
          if in_range 240 240 b0
          then in_range 144 191 b1 && cont b2 && cont b3 && utf8_valid l4
          else if in_range 241 243 b0
          then cont b1 && cont b2 && cont b3 && utf8_valid l4
          else if in_range 244 244 b0
          then in_range 128 143 b1 && cont b2 && cont b3 && utf8_valid l4
          else false
        end
      end
    end
  end.

Definition decode (b : bytes) : result string :=
  if utf8_valid b then Ok (String.string_of_list_byte b) else Raise UnicodeDecodeError.

(** ** [email.message.Message]

    A parsed message is a tree.  For each node the model keeps the header
    list ([items()]) and what the accessors [get_content_type()] and
    [get_filename()] return for it; a leaf carries the bytes that
    [get_payload(decode=True)] returns, a multipart node its sub-parts. *)
#[warnings="-register-all"]
Inductive Message :=
| Leaf (hdrs : list (string * HeaderValue)) (ctype : string)
       (fname : option string) (payload : bytes)
| Multipart (hdrs : list (string * HeaderValue)) (ctype : string)
            (fname : option string) (parts : list Message).

Definition items (m : Message) : list (string * HeaderValue) :=
  match m with Leaf h _ _ _ | Multipart h _ _ _ => h end.

Definition get_content_type (m : Message) : string :=
  match m with Leaf _ c _ _ | Multipart _ c _ _ => c end.

Definition get_filename (m : Message) : option string :=
  match m with Leaf _ _ f _ | Multipart _ _ f _ => f end.

Definition is_multipart (m : Message) : bool :=
  match m with Leaf _ _ _ _ => false | Multipart _ _ _ _ => true end.

(** [get_payload(decode=True)]: [None] on a multipart node. *)
Definition get_payload (m : Message) : option bytes :=
  match m with Leaf _ _ _ p => Some p | Multipart _ _ _ _ => None end.

(** [Message.get(name)]: first header whose name matches case-insensitively. *)
Fixpoint lookup_header (name : string) (h : list (string * HeaderValue))
  : option HeaderValue :=
  match h with
  | [] => None
  | (k, v) :: rest =>
    if String.eqb (lower k) (lower name) then Some v else lookup_header name rest
  end.

Definition get (name : string) (m : Message) : option HeaderValue :=
  lookup_header name (items m).

(** [Message.walk()]: the node itself, then its sub-parts, depth first. *)
Fixpoint walk (m : Message) : list Message :=
  m :: match m with
       | Leaf _ _ _ _ => []
       | Multipart _ _ _ ps =>
         (fix walk_all (l : list Message) : list Message :=
            match l with
            | [] => []
            | p :: l' => walk p ++ walk_all l'
            end) ps
       end.

(** [dict(pairs)]: a repeated key keeps its first position and takes the
    last value. *)
Fixpoint dict_set {V} (k : string) (v : V) (d : list (string * V))
  : list (string * V) :=
  match d with
  | [] => [(k, v)]
  | (k', v') :: rest =>
    if String.eqb k' k then (k', v) :: rest else (k', v') :: dict_set k v rest
  end.

Definition dict {V} (pairs : list (string * V)) : list (string * V) :=
  fold_left (fun d kv => dict_set kv.1 kv.2 d) pairs [].

(** ** Stored records *)

Record AttachmentRef := mkAttachment {
  att_filename : string;
  att_path : string;
  att_content_type : string;
}.

(** The dictionary [email_data].  In the handler's memory the values taken
    from headers are header values; in the emails file, which is JSON, they
    are strings. *)
Record EmailOf (V : Type) := mkEmail {
  email_id : Z;
  email_from : string;
  email_to : list string;
  subject : V;
  date : V;
  content_text : option string;
  content_html : option string;
  attachments : list AttachmentRef;
  headers : list (string * V);
}.
Arguments mkEmail {V}.
Arguments email_id {V}.
Arguments email_from {V}.
Arguments email_to {V}.
Arguments subject {V}.
Arguments date {V}.
Arguments content_text {V}.
Arguments content_html {V}.
Arguments attachments {V}.
Arguments headers {V}.

Abbreviation Email := (EmailOf HeaderValue).
Abbreviation StoredEmail := (EmailOf string).

Definition convert {V W} (f : V -> W) (e : EmailOf V) : EmailOf W :=
  mkEmail (email_id e) (email_from e) (email_to e) (f (subject e)) (f (date e))
          (content_text e) (content_html e) (attachments e)
          (map (fun kv => (kv.1, f kv.2)) (headers e)).

(** What [json.load] makes of a dumped record, and what [json.dump] writes
    for a record it can serialise. *)
Definition loaded : StoredEmail -> Email := convert Str.
Definition dumped : Email -> StoredEmail := convert text.

(** [json.dump] accepts strings and raises a TypeError on a [Header]
    object. *)
Definition serializable (e : Email) : bool :=
  is_str (subject e) && is_str (date e) &&
  forallb (fun kv => is_str kv.2) (headers e).

Record Envelope := mkEnvelope {
  mail_from : string;
  rcpt_tos : list string;
  content : bytes;
}.

(** ** Library interface

    [message_from_bytes] is the MIME parser, [html2text] is
    [html2text.HTML2Text().handle], and [attachment_path key] is
    [str(self.attachments_dir / key)]. *)
Class Library := {
  message_from_bytes : bytes -> result Message;
  html2text : string -> string;
  attachment_path : string -> string;
}.

(** ** The world: one handler's memory and the storage directory *)

(** What an attempt to write a file does: succeed, fail in [open] (nothing
    changes), or fail after [open] has truncated the file and [written]
    bytes have gone out. *)
Inductive Fault :=
| NoFault
| OpenFault
| WriteFault (written : nat).

(** [emails.json]: missing, holding a dumped list, or cut short by a failed
    dump (which [json.load] rejects). *)
Inductive File :=
| Absent
| Holds (l : list StoredEmail)
| Corrupt.

(** [self_emails] is [self.emails] of the handler the SMTP controller runs;
    [emails_file] and [blobs] (files by path) are the storage directory;
    [stdout] lists the errors [handle_DATA] has printed.  The next three
    fields say how the file system answers: what writing the emails file or
    a blob does (as far as the write gets to it), and whether [os.remove] is
    refused for a path.  [stdout_encodes] says which texts outside ASCII the
    encoding of the standard output can take. *)
Record World := mkWorld {
  self_emails : list Email;
  emails_file : File;
  blobs : gmap string bytes;
  stdout : list exn;
  emails_file_fault : Fault;
  write_fault : string -> Fault;
  remove_denied : string -> bool;
  stdout_encodes : string -> bool;
}.

Definition set_self_emails (l : list Email) (w : World) : World :=
  mkWorld l (emails_file w) (blobs w) (stdout w)
          (emails_file_fault w) (write_fault w) (remove_denied w)
          (stdout_encodes w).

Definition set_emails_file (f : File) (w : World) : World :=
  mkWorld (self_emails w) f (blobs w) (stdout w)
          (emails_file_fault w) (write_fault w) (remove_denied w)
          (stdout_encodes w).

Definition set_blobs (b : gmap string bytes) (w : World) : World :=
  mkWorld (self_emails w) (emails_file w) b (stdout w)
          (emails_file_fault w) (write_fault w) (remove_denied w)
          (stdout_encodes w).

Definition set_stdout (o : list exn) (w : World) : World :=
  mkWorld (self_emails w) (emails_file w) (blobs w) o
          (emails_file_fault w) (write_fault w) (remove_denied w)
          (stdout_encodes w).

(** The file an OSError names: [open] names the one it could not open, a
    write names none. *)
Definition named (path : string) (f : Fault) : option string :=
  match f with
  | OpenFault => Some path
  | _ => None
  end.

(** ** State and exception monad *)

Definition M (A : Type) : Type := World -> result A * World.

Definition ret {A} (a : A) : M A := fun w => (Ok a, w).

Definition raise {A} (e : exn) : M A := fun w => (Raise e, w).

Definition bind {A B} (c : M A) (k : A -> M B) : M B :=
  fun w =>
    match c w with
    | (Ok a, w1) => k a w1
    | (Raise e, w1) => (Raise e, w1)
    end.

Definition lift {A} (r : result A) : M A := fun w => (r, w).

Declare Scope py_scope.
Delimit Scope py_scope with py.
Notation "'let*' x := c 'in' k" := (bind c (fun x => k))
  (at level 10, x pattern, c at level 100, k at level 200) : py_scope.
Notation "c ;;; k" := (bind c (fun _ => k))
  (at level 100, k at level 200, right associativity) : py_scope.
Open Scope py_scope.

(** [for x in l: body] threading the loop variables [a]. *)
Fixpoint for_each {A S} (body : A -> S -> M S) (l : list A) (a : S) : M S :=
  match l with
  | [] => ret a
  | x :: rest => let* a' := body x a in for_each body rest a'
  end.

(** [try: c except OSError: pass]. *)
Definition try_except_OSError (c : M unit) : M unit :=
  fun w =>
    match c w with
    | (Raise (OSError _), w1) => (Ok tt, w1)
    | r => r
    end.

(** ** File operations *)

(** [with open(path, 'wb') as f: f.write(data)], where [data] is [None]
    when the payload expression yields no bytes: the file is opened (and so
    created empty) before [write] rejects the argument. *)
Definition write_blob (path : string) (data : option bytes) : M unit :=
  fun w =>
    match write_fault w path with
    | OpenFault => (Raise (OSError (Some path)), w)
    | f =>
      match data with
      | None => (Raise TypeError, set_blobs (<[path := []]> (blobs w)) w)
      | Some d =>
        match f with
        | WriteFault n =>
          (Raise (OSError None), set_blobs (<[path := take n d]> (blobs w)) w)
        | _ => (Ok tt, set_blobs (<[path := d]> (blobs w)) w)
        end
      end
    end.

(** [str(self.emails_file)]. *)
Definition emails_file_path : string := "mail_storage/emails.json".

(** [with open(self.emails_file, 'w') as f: json.dump(emails, f, indent=2)].
    [open] truncates the file; the dump then writes the list piece by piece
    and raises a TypeError when it comes to a [Header] object, which leaves
    the file cut short, as does a write that fails.  Where the file system
    fails as well, its OSError is the one that leaves the [with] block: the
    buffered text reaches the disk when the block closes the file. *)
Definition dump_emails (emails : list Email) : M unit :=
  fun w =>
    match emails_file_fault w with
    | OpenFault => (Raise (OSError (Some emails_file_path)), w)
    | WriteFault _ => (Raise (OSError None), set_emails_file Corrupt w)
    | NoFault =>
      if forallb serializable emails
      then (Ok tt, set_emails_file (Holds (map dumped emails)) w)
      else (Raise TypeError, set_emails_file Corrupt w)
    end.

(** [os.remove(path)]. *)
Definition os_remove (path : string) : M unit :=
  fun w =>
    match blobs w !! path with
    | None => (Raise (OSError (Some path)), w)
    | Some _ =>
      if remove_denied w path then (Raise (OSError (Some path)), w)
      else (Ok tt, set_blobs (delete path (blobs w)) w)
    end.

(** ** [MailTrapHandler] *)

(** [MailTrapHandler.__init__]: the new handler's [emails]. *)
Definition MailTrapHandler : M (list Email) :=
  fun w =>
    match emails_file w with
    | Absent => (Ok [], w)
    | Holds l => (Ok (map loaded l), w)
    | Corrupt => (Raise JSONDecodeError, w)
    end.

(** The loop variables of [handle_DATA]. *)
Record Locals := mkLocals {
  l_attachments : list AttachmentRef;
  body_html : option string;
  body_text : option string;
}.

Definition init_locals : Locals := mkLocals [] None None.

(** [part.get_payload(decode=True).decode()]. *)
Definition payload_decode (part : Message) : M string :=
  match get_payload part with
  | None => raise AttributeError
  | Some b => lift (decode b)
  end.

Section Server.
Context `{lib : Library}.

(** The body of [for part in msg.walk()]. *)
Definition visit_part (id : Z) (part : Message) (a : Locals) : M Locals :=
  let content_type := get_content_type part in
  let content_disposition := str (get "Content-Disposition" part) in
  if contains "attachment" content_disposition then
    let filename := get_filename part in
    if truthy filename then
      let name := default "" filename in
      let path := attachment_path (pretty id +:+ "_" +:+ name) in
      write_blob path (get_payload part) ;;;
      ret (mkLocals (l_attachments a ++ [mkAttachment name path content_type])
                    (body_html a) (body_text a))
    else ret a
  else
    if String.eqb content_type "text/html" then
      let* html := payload_decode part in
      ret (mkLocals (l_attachments a) (Some html)
                    (if truthy (body_text a) then body_text a else Some (html2text html)))
    else if String.eqb content_type "text/plain" then
      let* text := payload_decode part in
      ret (mkLocals (l_attachments a) (body_html a) (Some text))
    else ret a.

(** The [else] branch for non-multipart messages. *)
Definition single_part (msg : Message) : M Locals :=
  if String.eqb (get_content_type msg) "text/html" then
    let* html := payload_decode msg in
    ret (mkLocals [] (Some html) (Some (html2text html)))
  else
    let* text := payload_decode msg in
    ret (mkLocals [] None (Some text)).

(** [handle_DATA] up to and including the construction of [email_data]. *)
Definition decompose (now : string) (envelope : Envelope) : M Email :=
  let* id := (fun w => (Ok (Z.of_nat (length (self_emails w)) + 1), w)) in
  let* msg := lift (message_from_bytes (content envelope)) in
  let subj := default (Str "") (get "subject" msg) in
  let dt := default (Str now) (get "date" msg) in
  let* a := (if is_multipart msg
             then for_each (visit_part id) (walk msg) init_locals
             else single_part msg) in
  ret (mkEmail id (mail_from envelope) (rcpt_tos envelope) subj dt
               (body_text a) (body_html a) (l_attachments a) (dict (items msg))).

(** The identifier [decompose] assigns, and its branch on [is_multipart],
    by name. *)
Definition next_id (w : World) : Z := Z.of_nat (length (self_emails w)) + 1.

Definition body_of (id : Z) (msg : Message) : M Locals :=
  if is_multipart msg
  then for_each (visit_part id) (walk msg) init_locals
  else single_part msg.

(** [self.emails.append(email_data)] and the dump of the list. *)
Definition commit (email_data : Email) : M unit :=
  let* emails := (fun w => let l := self_emails w ++ [email_data] in
                           (Ok l, set_self_emails l w)) in
  dump_emails emails.

Definition accepted : string := "250 Message accepted for delivery".
Definition rejected : string := "500 Error processing message".

(** The text of [str(e)] that comes from data: an OSError names its file,
    when it has one; the other messages are fixed ASCII text. *)
Definition error_text (e : exn) : string :=
  match e with
  | OSError (Some filename) => filename
  | _ => ""
  end.

(** [print(f"Error processing email: {str(e)}")]: the standard output takes
    ASCII text, and other text if its encoding has the characters;
    otherwise [print] raises a UnicodeEncodeError. *)
Definition print_error (e : exn) : M unit :=
  fun w =>
    if is_ascii (error_text e) || stdout_encodes w (error_text e)
    then (Ok tt, set_stdout (stdout w ++ [e]) w)
    else (Raise UnicodeEncodeError, w).

(** [handle_DATA]: the [try] block, then [except Exception], which prints
    the error and answers with the error code; an exception raised by the
    [print] itself leaves the handler.  [now] is what
    [datetime.now().isoformat()] returns during the call. *)
Definition handle_DATA_try (now : string) (envelope : Envelope) : M string :=
  let* email_data := decompose now envelope in
  commit email_data ;;;
  ret accepted.

Definition handle_DATA (now : string) (envelope : Envelope) : M string :=
  fun w =>
    match handle_DATA_try now envelope w with
    | (Ok r, w1) => (Ok r, w1)
    | (Raise e, w1) => (print_error e ;;; ret rejected) w1
    end.

(** ** The deletion endpoint *)

Definition has_id {V} (id : Z) (e : EmailOf V) : bool := email_id e =? id.

(** The body of [for attachment in email['attachments']]. *)
Definition remove_attachment (attachment : AttachmentRef) (_ : unit) : M unit :=
  try_except_OSError (os_remove (att_path attachment)).

(** [delete_email] together with the final value of its local
    [handler.emails]. *)
Definition delete_email_locals (id : Z) : M (list Email * string) :=
  let* handler_emails := MailTrapHandler in
  match find (has_id id) handler_emails with
  | None => raise (HTTPException 404 "Email not found")
  | Some email =>
    let handler_emails := filter (fun e => email_id e <> id) handler_emails in
    dump_emails handler_emails ;;;
    for_each remove_attachment (attachments email) tt ;;;
    ret (handler_emails, "Email deleted")
  end.

Definition delete_email (id : Z) : M string :=
  let* r := delete_email_locals id in ret r.2.

(** [get_email]. *)
Definition get_email (id : Z) : M Email :=
  let* handler_emails := MailTrapHandler in
  match find (has_id id) handler_emails with
  | None => raise (HTTPException 404 "Email not found")
  | Some email => ret email
  end.

(** [get_emails]. *)
Definition get_emails : M (list Email) :=
  let* handler_emails := MailTrapHandler in
  ret handler_emails.

(** [handle_RCPT]: [envelope.rcpt_tos.append(address)], answer '250 OK'. *)
Definition handle_RCPT (envelope : Envelope) (address : string)
  : Envelope * string :=
  (mkEnvelope (mail_from envelope) (rcpt_tos envelope ++ [address])
              (content envelope),
   "250 OK").

(** Process start: [MailTrap()] builds the handler from the storage
    directory. *)
Definition start : M unit :=
  let* l := MailTrapHandler in
  fun w => (Ok tt, set_self_emails l w).

End Server.

(** ** Vocabulary for the statements *)

(** A step that touches nothing but the blobs. *)
Definition blobs_only (w w1 : World) : Prop := w1 = set_blobs (blobs w1) w.

(** Presence of blobs is monotone along a step. *)
Definition blobs_kept (w w1 : World) : Prop :=
  forall p, is_Some (blobs w !! p) -> is_Some (blobs w1 !! p).

(** The branch conditions of the loop body, by name. *)
Definition attachment_intent (part : Message) : bool :=
  contains "attachment" (str (get "Content-Disposition" part)).

Definition is_attachment (part : Message) : bool :=
  attachment_intent part && truthy (get_filename part).

Definition is_html_body (part : Message) : bool :=
  negb (attachment_intent part) && String.eqb (get_content_type part) "text/html".

Definition is_plain_body (part : Message) : bool :=
  negb (attachment_intent part) && String.eqb (get_content_type part) "text/plain".

(** Parts the loop passes over: containers and other types without
    attachment intent, and parts with attachment intent but no filename. *)
Definition ignored (part : Message) : bool :=
  negb (is_attachment part || is_html_body part || is_plain_body part).

(** The parts of a message the loop acts on, in visiting order. *)
Definition effective_parts (msg : Message) : list Message :=
  filter (fun p => ignored p = false) (walk msg).

(** The storage key [f'{email_id}_{filename}']. *)
Definition storage_key (id : Z) (filename : string) : string :=
  pretty id +:+ "_" +:+ filename.

(** The record [handle_DATA] appends, when it succeeds. *)
Definition new_record (w w' : World) (r : Email) : Prop :=
  self_emails w' = self_emails w ++ [r] /\
  emails_file w' = Holds (map dumped (self_emails w')) /\
  email_id r = Z.of_nat (length (self_emails w)) + 1 /\
  forallb serializable (self_emails w') = true.

(** ** Sample messages

    Raw transmissions and the trees Python's parser builds from them.  A
    sample library parses by table, so every example says which bytes it
    feeds and which tree comes back. *)

Fixpoint bytes_eqb (a b : bytes) : bool :=
  match a, b with
  | [], [] => true
  | x :: a', y :: b' => Byte.eqb x y && bytes_eqb a' b'
  | _, _ => false
  end.

Definition b (s : string) : bytes := String.list_byte_of_string s.

Definition nl : string := String (Ascii.ascii_of_nat 10) "".

Definition sample_library (table : list (bytes * Message)) : Library := {|
  message_from_bytes raw :=
    match find (fun kv => bytes_eqb kv.1 raw) table with
    | Some kv => Ok kv.2
    | None => Raise MessageError
    end;
  html2text html :=
    if String.eqb html "<p>Hi</p>" then "Hi" +:+ nl +:+ nl else html;
  attachment_path key := "mail_storage/attachments/" +:+ key;
|}.

Definition mixed_hdr : string * HeaderValue :=
  ("Content-Type", Str "multipart/mixed; boundary=b").

Definition raw_one : bytes := b "Subject: one

first".
Definition msg_one : Message := Leaf [("Subject", Str "one")] "text/plain" None (b "first").

Definition raw_two : bytes := b "Subject: two

second".
Definition msg_two : Message := Leaf [("Subject", Str "two")] "text/plain" None (b "second").

Definition raw_three : bytes := b "Subject: three

third".
Definition msg_three : Message := Leaf [("Subject", Str "three")] "text/plain" None (b "third").

Definition raw_bad_date : bytes := b "Date: not-a-date

body".
Definition msg_bad_date : Message :=
  Leaf [("Date", Str "not-a-date")] "text/plain" None (b "body").

(** An attachment followed by a text part holding the single byte 0xFF. *)
Definition raw_orphan : bytes :=
  b "Content-Type: multipart/mixed; boundary=b

--b
Content-Type: text/plain
Content-Disposition: attachment; filename=a.txt

data
--b
Content-Type: text/plain

" ++ [xff] ++ b "
--b--
".
Definition msg_orphan : Message :=
  Multipart [mixed_hdr] "multipart/mixed" None
    [Leaf [("Content-Type", Str "text/plain");
           ("Content-Disposition", Str "attachment; filename=a.txt")]
          "text/plain" (Some "a.txt") (b "data");
     Leaf [("Content-Type", Str "text/plain")] "text/plain" None [xff]].

Definition raw_two_plain : bytes :=
  b "Content-Type: multipart/mixed; boundary=b

--b
Content-Type: text/plain

first
--b
Content-Type: text/plain

second
--b--
".
Definition msg_two_plain : Message :=
  Multipart [mixed_hdr] "multipart/mixed" None
    [Leaf [("Content-Type", Str "text/plain")] "text/plain" None (b "first");
     Leaf [("Content-Type", Str "text/plain")] "text/plain" None (b "second")].

Definition raw_nameless : bytes :=
  b "Content-Type: multipart/mixed; boundary=b

--b
Content-Type: text/plain
Content-Disposition: attachment

hello
--b--
".
Definition part_nameless : Message :=
  Leaf [("Content-Type", Str "text/plain"); ("Content-Disposition", Str "attachment")]
       "text/plain" None (b "hello").
Definition msg_nameless : Message :=
  Multipart [mixed_hdr] "multipart/mixed" None [part_nameless].

Definition raw_report : bytes :=
  b "Subject: Hello
Content-Type: multipart/mixed; boundary=b

--b
Content-Type: text/html

<p>Hi</p>
--b
Content-Type: application/pdf
Content-Disposition: attachment; filename=report.pdf

%PDF
--b--
".
Definition part_html : Message :=
  Leaf [("Content-Type", Str "text/html")] "text/html" None (b "<p>Hi</p>").
Definition part_report : Message :=
  Leaf [("Content-Type", Str "application/pdf");
        ("Content-Disposition", Str "attachment; filename=report.pdf")]
       "application/pdf" (Some "report.pdf") (b "%PDF").
Definition msg_report : Message :=
  Multipart [("Subject", Str "Hello"); mixed_hdr] "multipart/mixed" None
    [part_html; part_report].

Definition samples : Library :=
  sample_library
    [(raw_one, msg_one); (raw_two, msg_two); (raw_three, msg_three);
     (raw_bad_date, msg_bad_date); (raw_orphan, msg_orphan);
     (raw_two_plain, msg_two_plain); (raw_nameless, msg_nameless);
     (raw_report, msg_report)].

Definition envelope_of (raw : bytes) : Envelope :=
  mkEnvelope "app@example.test" ["dev@example.test"] raw.

(** A fresh storage directory, no handler memory, no faults. *)
Definition fresh : World :=
  mkWorld [] Absent ∅ [] NoFault (fun _ => NoFault) (fun _ => false) (fun _ => false).

Definition clock : string := "2024-05-01T10:00:00.000000".

(** *** Sample runs *)

Definition ingest (raw : bytes) (w : World) : result string * World :=
  handle_DATA (lib := samples) clock (envelope_of raw) w.

(** Two ingestions into a fresh directory, deletion of the first record,
    a restart of the process, and a third ingestion. *)
Definition after_two : World := (ingest raw_two (ingest raw_one fresh).2).2.
Definition after_delete : World := (delete_email 1 after_two).2.
Definition after_restart : World := (start after_delete).2.
Definition after_three : World := (ingest raw_three after_restart).2.

Definition file_ids (w : World) : list Z :=
  match emails_file w with
  | Holds l => map email_id l
  | _ => []
  end.

(** A directory with two stored records; the first has two attachments,
    and the blob of the second of them is not on disk. *)
Definition record_report : StoredEmail :=
  mkEmail 1 "app@example.test" ["dev@example.test"] "Hello" clock
          (Some ("Hi" +:+ nl +:+ nl)) (Some "<p>Hi</p>")
          [mkAttachment "report.pdf" "mail_storage/attachments/1_report.pdf"
                        "application/pdf";
           mkAttachment "gone.txt" "mail_storage/attachments/1_gone.txt"
                        "text/plain"]
          [("Subject", "Hello"); ("Content-Type", "multipart/mixed; boundary=b")].

Definition record_two : StoredEmail :=
  mkEmail 2 "app@example.test" ["dev@example.test"] "two" clock
          (Some "second") None [] [("Subject", "two")].

Definition stored : World :=
  mkWorld [] (Holds [record_report; record_two])
          {[ "mail_storage/attachments/1_report.pdf" := b "%PDF" ]}
          [] NoFault (fun _ => NoFault) (fun _ => false) (fun _ => false).

(** A directory whose emails file cannot be written to the end. *)
Definition disk_full : World :=
  mkWorld [] Absent ∅ [] (WriteFault 0) (fun _ => NoFault) (fun _ => false) (fun _ => false).

(** ** Further vocabulary *)

(** Several [handle_RCPT] calls in a row on one envelope. *)
Definition accept_recipients (envelope : Envelope) (addresses : list string)
  : Envelope :=
  fold_left (fun e a => (handle_RCPT e a).1) addresses envelope.

(** Several transmissions handled one after the other by one handler. *)
Fixpoint handle_all `{lib : Library} (l : list (string * Envelope)) (w : World)
  : list (result string) * World :=
  match l with
  | [] => ([], w)
  | (now, envelope) :: rest =>
    let (r, w1) := handle_DATA now envelope w in
    let (rs, w2) := handle_all rest w1 in
    (r :: rs, w2)
  end.

(** [d.get(k)] on a dictionary kept as a list of pairs. *)
Fixpoint dict_get {V} (k : string) (d : list (string * V)) : option V :=
  match d with
  | [] => None
  | (k', v) :: rest => if String.eqb k' k then Some v else dict_get k rest
  end.

(** The dictionary the loop appends for an attachment part. *)
Definition attachment_ref `{lib : Library} (id : Z) (part : Message)
  : AttachmentRef :=
  let name := default "" (get_filename part) in
  mkAttachment name (attachment_path (storage_key id name)) (get_content_type part).

(** The dictionary [email_data] built from the loop variables. *)
Definition record_of (now : string) (envelope : Envelope) (w : World)
    (msg : Message) (a : Locals) : Email :=
  mkEmail (next_id w) (mail_from envelope) (rcpt_tos envelope)
          (default (Str "") (get "subject" msg))
          (default (Str now) (get "date" msg))
          (body_text a) (body_html a) (l_attachments a) (dict (items msg)).

Definition underscore : Ascii.ascii := Ascii.ascii_of_nat 95.

Fixpoint no_underscore (s : string) : Prop :=
  match s with
  | EmptyString => True
  | String c rest => c <> underscore /\ no_underscore rest
  end.

(** *** More sample messages *)

Definition alternative_hdr : string * HeaderValue :=
  ("Content-Type", Str "multipart/alternative; boundary=b").

Definition raw_alternative : bytes :=
  b "Content-Type: multipart/alternative; boundary=b

--b
Content-Type: text/plain

Hi
--b
Content-Type: text/html

<p>Hi</p>
--b--
".
Definition part_plain_hi : Message :=
  Leaf [("Content-Type", Str "text/plain")] "text/plain" None (b "Hi").
Definition msg_alternative : Message :=
  Multipart [alternative_hdr] "multipart/alternative" None [part_plain_hi; part_html].

Definition raw_twins : bytes :=
  b "Content-Type: multipart/mixed; boundary=b

--b
Content-Type: text/plain
Content-Disposition: attachment; filename=a.txt

one
--b
Content-Type: text/plain
Content-Disposition: attachment; filename=a.txt

two
--b--
".
Definition twin (payload : string) : Message :=
  Leaf [("Content-Type", Str "text/plain");
        ("Content-Disposition", Str "attachment; filename=a.txt")]
       "text/plain" (Some "a.txt") (b payload).
Definition msg_twins : Message :=
  Multipart [mixed_hdr] "multipart/mixed" None [twin "one"; twin "two"].

(** A forwarded message as an attachment: the message/rfc822 part is itself
    a multipart node, whose only sub-part is the forwarded message. *)
Definition raw_forward : bytes :=
  b "Content-Type: multipart/mixed; boundary=b

--b
Content-Type: message/rfc822
Content-Disposition: attachment; filename=fwd.eml

Subject: inner

hi
--b--
".
Definition part_forward : Message :=
  Multipart [("Content-Type", Str "message/rfc822");
             ("Content-Disposition", Str "attachment; filename=fwd.eml")]
            "message/rfc822" (Some "fwd.eml")
            [Leaf [("Subject", Str "inner")] "text/plain" None (b "hi")].
Definition msg_forward : Message :=
  Multipart [mixed_hdr] "multipart/mixed" None [part_forward].

Definition raw_inline_image : bytes :=
  b "Content-Type: multipart/related; boundary=b

--b
Content-Type: image/png
Content-Disposition: inline

PNG
--b--
".
Definition msg_inline_image : Message :=
  Multipart [("Content-Type", Str "multipart/related; boundary=b")]
            "multipart/related" None
    [Leaf [("Content-Type", Str "image/png"); ("Content-Disposition", Str "inline")]
          "image/png" None (b "PNG")].

Definition raw_pdf : bytes := b "Content-Type: application/pdf

%PDF".
Definition msg_pdf : Message :=
  Leaf [("Content-Type", Str "application/pdf")] "application/pdf" None (b "%PDF").

Definition raw_html : bytes := b "Content-Type: text/html

<p>Hi</p>".
Definition msg_html : Message :=
  Leaf [("Content-Type", Str "text/html")] "text/html" None (b "<p>Hi</p>").

Definition raw_bad : bytes := b "Subject: bad

" ++ [xff].
Definition msg_bad : Message := Leaf [("Subject", Str "bad")] "text/plain" None [xff].

Definition raw_subjects : bytes := b "Subject: a
subject: b
Subject: c

x".
Definition msg_subjects : Message :=
  Leaf [("Subject", Str "a"); ("subject", Str "b"); ("Subject", Str "c")]
       "text/plain" None (b "x").

Definition more_samples : Library :=
  sample_library
    [(raw_one, msg_one); (raw_two, msg_two); (raw_three, msg_three);
     (raw_alternative, msg_alternative); (raw_twins, msg_twins);
     (raw_forward, msg_forward); (raw_inline_image, msg_inline_image);
     (raw_pdf, msg_pdf); (raw_html, msg_html); (raw_bad, msg_bad);
     (raw_subjects, msg_subjects); (raw_report, msg_report)].

Definition ingest' (raw : bytes) (w : World) : result string * World :=
  handle_DATA (lib := more_samples) clock (envelope_of raw) w.

Definition record_one : StoredEmail :=
  mkEmail 1 "app@example.test" ["dev@example.test"] "one" clock
          (Some "first") None [] [("Subject", "one")].

(** A running handler whose list and emails file agree on two records. *)
Definition running : World :=
  mkWorld (map loaded [record_report; record_two])
          (Holds [record_report; record_two])
          {[ "mail_storage/attachments/1_report.pdf" := b "%PDF" ]}
          [] NoFault (fun _ => NoFault) (fun _ => false) (fun _ => false).

(** A directory whose emails file was cut short. *)
Definition broken : World :=
  mkWorld [] Corrupt ∅ [] NoFault (fun _ => NoFault) (fun _ => false) (fun _ => false).

(** A directory whose emails file cannot be opened for writing. *)
Definition read_only : World :=
  mkWorld [] (Holds [record_report; record_two])
          {[ "mail_storage/attachments/1_report.pdf" := b "%PDF" ]}
          [] OpenFault (fun _ => NoFault) (fun _ => false) (fun _ => false).

(** ** What a message says of itself

    The handler reads neither the charset a part declares nor the
    disposition type as such.  These accessors of the message library give
    both, for comparison with what the handler stores. *)

Fixpoint before_semicolon (s : string) : string :=
  match s with
  | EmptyString => EmptyString
  | String c rest =>
    if Ascii.eqb c (Ascii.ascii_of_nat 59) then EmptyString
    else String c (before_semicolon rest)
  end.



(** Blanks and double quotes taken out: a parameter value that holds
    neither, unquoted and stripped. *)
Fixpoint bare (s : string) : string :=
  match s with
  | EmptyString => EmptyString
  | String c rest =>
    if Ascii.eqb c (Ascii.ascii_of_nat 32) || Ascii.eqb c (Ascii.ascii_of_nat 34)
    then bare rest else String c (bare rest)
  end.

(** What follows the first occurrence of [needle]. *)
Fixpoint after (needle s : string) : option string :=
  if String.prefix needle s
  then Some (String.substring (String.length needle) (String.length s) s)
  else match s with
       | EmptyString => None
       | String _ rest => after needle rest
       end.


(** [get_content_charset()] for a Content-Type whose charset parameter is
    written plainly, as [charset=value]: the value, in lower case. *)
Definition get_content_charset (part : Message) : option string :=
  match get "Content-Type" part with
  | Some v =>
    match after "charset=" (lower (text v)) with
    | Some rest => Some (bare (before_semicolon rest))
    | None => None
    end
  | None => None
  end.

(** [bytes.decode('iso-8859-1')]: every byte is the character of that
    number.  The result is written in UTF-8, like every text here. *)
Definition latin1_char (x : byte) : bytes :=
  let n := Byte.to_N x in
  if (n <? 128)%N then [x]
  else [default x (Byte.of_N (192 + n / 64)); default x (Byte.of_N (128 + n mod 64))].

Definition latin1_decode (payload : bytes) : string :=
  String.string_of_list_byte (flat_map latin1_char payload).

(** The text of a leaf's payload under the charset it declares, for the
    charsets used below. *)
Definition declared_text (part : Message) : option string :=
  match get_payload part, get_content_charset part with
  | Some payload, Some "iso-8859-1" => Some (latin1_decode payload)
  | Some payload, (None | Some "utf-8") =>
    if utf8_valid payload then Some (String.string_of_list_byte payload) else None
  | _, _ => None
  end.

(** *** Messages at the edges *)

(** Bytes C3 A9 declared as ISO-8859-1: the two characters A-tilde and
    copyright sign. *)
Definition raw_latin1 : bytes := b "Content-Type: text/plain; charset=iso-8859-1

" ++ [xc3; xa9].
Definition msg_latin1 : Message :=
  Leaf [("Content-Type", Str "text/plain; charset=iso-8859-1")]
       "text/plain" None [xc3; xa9].

(** The disposition type written with a capital letter. *)
Definition raw_capital : bytes :=
  b "Content-Type: multipart/mixed; boundary=b

--b
Content-Type: text/html

<p>Hi</p>
--b
Content-Type: application/pdf
Content-Disposition: Attachment; filename=report.pdf

%PDF
--b--
".
Definition part_capital : Message :=
  Leaf [("Content-Type", Str "application/pdf");
        ("Content-Disposition", Str "Attachment; filename=report.pdf")]
       "application/pdf" (Some "report.pdf") (b "%PDF").
Definition msg_capital : Message :=
  Multipart [mixed_hdr] "multipart/mixed" None [part_html; part_capital].

(** An attachment whose filename, given in the RFC 2231 form, holds two
    kanji and a slash. *)
Definition kanji_name : string := "日本/x.txt".
Definition raw_kanji : bytes :=
  b "Content-Type: multipart/mixed; boundary=b

--b
Content-Type: text/plain
Content-Disposition: attachment; filename*=utf-8''%E6%97%A5%E6%9C%AC%2Fx.txt

data
--b--
".
Definition part_kanji : Message :=
  Leaf [("Content-Type", Str "text/plain");
        ("Content-Disposition",
         Str "attachment; filename*=utf-8''%E6%97%A5%E6%9C%AC%2Fx.txt")]
       "text/plain" (Some kanji_name) (b "data").
Definition msg_kanji : Message :=
  Multipart [mixed_hdr] "multipart/mixed" None [part_kanji].

(** A subject whose raw bytes are outside ASCII: the parser hands out a
    [Header] object, whose [str] shows two replacement characters. *)
Definition raw_cafe : bytes := b "Subject: caf" ++ [xc3; xa9] ++ b "

body".
Definition msg_cafe : Message :=
  Leaf [("Subject", Header "caf��")] "text/plain" None (b "body").

Definition edge_samples : Library :=
  sample_library
    [(raw_one, msg_one); (raw_latin1, msg_latin1); (raw_capital, msg_capital);
     (raw_kanji, msg_kanji); (raw_cafe, msg_cafe)].

(** A fresh directory, where the sub-directory named in [kanji_name] does
    not exist, so that no file can be opened in it; the standard output
    encodes ASCII only. *)
Definition ascii_terminal : World :=
  mkWorld [] Absent ∅ [] NoFault
          (fun path =>
             if String.eqb path ("mail_storage/attachments/1_" +:+ kanji_name)
             then OpenFault else NoFault)
          (fun _ => false) (fun _ => false).

(** What [decompose] makes of it. *)
Definition record_cafe : Email :=
  mkEmail 1 "app@example.test" ["dev@example.test"] (Header "caf��") (Str clock)
          (Some "body") None [] [("Subject", Header "caf��")].

Definition ingest_edge (raw : bytes) (w : World) : result string * World :=
  handle_DATA (lib := edge_samples) clock (envelope_of raw) w.

(** Every header value of the message is a [str], as the parser gives them
    for header lines within ASCII. *)
Definition str_headers (msg : Message) : bool :=
  forallb (fun kv => is_str kv.2) (items msg).

(** * Proofs *)

(** ** Reasoning about the monad *)

Lemma bind_Ok {A B} (c : M A) (k : A -> M B) w b w' :
  bind c k w = (Ok b, w') ->
  exists a w1, c w = (Ok a, w1) /\ k a w1 = (Ok b, w').
Proof.
  unfold bind. destruct (c w) as [[a|e] w1]; intros Hk; [eauto | discriminate].
Qed.


Lemma bind_eq {A B} (c : M A) (k : A -> M B) w a w1 :
  c w = (Ok a, w1) -> bind c k w = k a w1.
Proof. unfold bind. intros ->. reflexivity. Qed.

Lemma bind_eq_Raise {A B} (c : M A) (k : A -> M B) w e w1 :
  c w = (Raise e, w1) -> bind c k w = (Raise e, w1).
Proof. unfold bind. intros ->. reflexivity. Qed.

Lemma blobs_only_refl w : blobs_only w w.
Proof. destruct w; reflexivity. Qed.

Lemma blobs_only_trans w w1 w2 : blobs_only w w1 -> blobs_only w1 w2 -> blobs_only w w2.
Proof. unfold blobs_only. intros H1 H2. rewrite H2, H1. reflexivity. Qed.

Lemma blobs_only_set b w : blobs_only w (set_blobs b w).
Proof. reflexivity. Qed.

Lemma blobs_only_fields w w1 :
  blobs_only w w1 ->
  self_emails w1 = self_emails w /\ emails_file w1 = emails_file w /\
  stdout w1 = stdout w /\ emails_file_fault w1 = emails_file_fault w /\
  write_fault w1 = write_fault w /\ remove_denied w1 = remove_denied w.
Proof. intros ->. repeat split. Qed.

Lemma write_blob_blobs_only path data w r w1 :
  write_blob path data w = (r, w1) -> blobs_only w w1 /\ blobs_kept w w1.
Proof.
  unfold write_blob, blobs_kept. intros Hw.
  destruct (write_fault w path), data; simplify_eq; split;
    try apply blobs_only_refl; try apply blobs_only_set; try done;
    intros p Hp; simpl; destruct (decide (path = p)) as [->|Hne];
    rewrite ?lookup_insert_eq, ?lookup_insert_ne by done; eauto.
Qed.

Lemma payload_decode_pure part w r w1 :
  payload_decode part w = (r, w1) -> w1 = w.
Proof.
  unfold payload_decode, raise, lift.
  destruct (get_payload part); intros Hp; congruence.
Qed.

Lemma payload_decode_Ok part w text w1 :
  payload_decode part w = (Ok text, w1) ->
  exists b, get_payload part = Some b /\ decode b = Ok text /\ w1 = w.
Proof.
  unfold payload_decode, raise, lift.
  destruct (get_payload part) as [b|]; intros Hp; [|discriminate].
  exists b. split; [done|]. split; congruence.
Qed.

Lemma decode_Ok payload text :
  decode payload = Ok text ->
  utf8_valid payload = true /\ text = String.string_of_list_byte payload.
Proof.
  unfold decode. destruct (utf8_valid payload); intros; simplify_eq. done.
Qed.

Section ServerFacts.
Context `{lib : Library}.

(** *** One part of the walk *)

Lemma visit_part_ignored id part a :
  ignored part = true -> visit_part id part a = ret a.
Proof.
  unfold ignored, is_attachment, is_html_body, is_plain_body, visit_part.
  fold (attachment_intent part).
  destruct (attachment_intent part), (truthy (get_filename part)),
    (String.eqb (get_content_type part) "text/html"),
    (String.eqb (get_content_type part) "text/plain"); simpl; done.
Qed.

Lemma visit_part_attachment id part a w r w1 :
  is_attachment part = true ->
  visit_part id part a w = (r, w1) ->
  exists name,
    get_filename part = Some name /\
    let path := attachment_path (storage_key id name) in
    match r with
    | Ok a' =>
      a' = mkLocals (l_attachments a ++ [mkAttachment name path (get_content_type part)])
                    (body_html a) (body_text a) /\
      exists data, get_payload part = Some data /\
                   w1 = set_blobs (<[path := data]> (blobs w)) w
    | Raise _ => True
    end.
Proof.
  unfold is_attachment, visit_part. fold (attachment_intent part).
  intros [Hi Hf]%andb_true_iff. rewrite Hi, Hf.
  destruct (get_filename part) as [name|] eqn:Hn; [|discriminate].
  intros Hv. exists name. split; [done|]. simpl in *. fold (storage_key id name) in *.
  destruct r as [a'|e]; [|done].
  apply bind_Ok in Hv as (u & w2 & Hw & Hr).
  unfold ret in Hr. simplify_eq. split; [done|].
  unfold write_blob in Hw.
  destruct (write_fault w _), (get_payload part) as [data|]; simplify_eq; eauto.
Qed.

Lemma visit_part_html id part a w a' w1 :
  is_html_body part = true ->
  visit_part id part a w = (Ok a', w1) ->
  exists b html,
    get_payload part = Some b /\ decode b = Ok html /\ w1 = w /\
    a' = mkLocals (l_attachments a) (Some html)
                  (if truthy (body_text a) then body_text a else Some (html2text html)).
Proof.
  unfold is_html_body, visit_part. fold (attachment_intent part).
  intros [Hi Hc]%andb_true_iff. apply negb_true_iff in Hi. rewrite Hi, Hc.
  intros (html & w2 & Hp & Hr)%bind_Ok.
  apply payload_decode_Ok in Hp as (b & Hb & Hd & ->).
  unfold ret in Hr. simplify_eq. eauto 10.
Qed.

Lemma visit_part_plain id part a w a' w1 :
  is_plain_body part = true ->
  visit_part id part a w = (Ok a', w1) ->
  exists b text,
    get_payload part = Some b /\ decode b = Ok text /\ w1 = w /\
    a' = mkLocals (l_attachments a) (body_html a) (Some text).
Proof.
  unfold is_plain_body, visit_part. fold (attachment_intent part).
  intros [Hi Hc]%andb_true_iff. apply negb_true_iff in Hi. rewrite Hi, Hc.
  destruct (String.eqb (get_content_type part) "text/html") eqn:Hh.
  { apply String.eqb_eq in Hh, Hc. congruence. }
  intros (text & w2 & Hp & Hr)%bind_Ok.
  apply payload_decode_Ok in Hp as (b & Hb & Hd & ->).
  unfold ret in Hr. simplify_eq. eauto 10.
Qed.

Lemma visit_part_frame id part a w r w1 :
  visit_part id part a w = (r, w1) -> blobs_only w w1 /\ blobs_kept w w1.
Proof.
  assert (Hrefl : blobs_only w w /\ blobs_kept w w).
  { split; [apply blobs_only_refl | by intros p]. }
  unfold visit_part.
  destruct (contains _ _).
  - destruct (truthy _); [|unfold ret; intros; simplify_eq; done].
    unfold bind. destruct (write_blob _ _ w) as [[u|e] w2] eqn:Hw;
      unfold ret; intros; simplify_eq; eapply write_blob_blobs_only; eauto.
  - destruct (String.eqb _ "text/html"); [|destruct (String.eqb _ "text/plain")];
      unfold bind, ret;
      try (destruct (payload_decode part w) as [[t|e] w2] eqn:Hp;
           apply payload_decode_pure in Hp);
      intros; simplify_eq; done.
Qed.

(** *** The loop *)

Lemma for_each_frame id l a w r w1 :
  for_each (visit_part id) l a w = (r, w1) -> blobs_only w w1 /\ blobs_kept w w1.
Proof.
  revert a w. induction l as [|p l IH]; intros a w; simpl.
  - unfold ret. intros; simplify_eq. split; [apply blobs_only_refl | by intros q].
  - unfold bind. destruct (visit_part id p a w) as [[a'|e] w2] eqn:Hv;
      apply visit_part_frame in Hv as [Hb Hk].
    + intros [Hb' Hk']%IH. split; [eapply blobs_only_trans; eauto|].
      intros q Hq. auto.
    + intros; simplify_eq. done.
Qed.

Lemma for_each_effective id l a w :
  for_each (visit_part id) l a w =
  for_each (visit_part id) (filter (fun p => ignored p = false) l) a w.
Proof.
  revert a w. induction l as [|p l IH]; intros a w; [done|].
  rewrite filter_cons. case_decide as Hi; simpl.
  - unfold bind. destruct (visit_part id p a w) as [[a'|e] w2]; [apply IH | done].
  - apply not_false_is_true in Hi.
    rewrite (visit_part_ignored _ _ _ Hi). unfold bind, ret. apply IH.
Qed.

Lemma visit_part_not_attachment id part a w a' w1 :
  is_attachment part = false ->
  visit_part id part a w = (Ok a', w1) ->
  l_attachments a' = l_attachments a /\ w1 = w.
Proof.
  unfold is_attachment, visit_part. fold (attachment_intent part).
  destruct (attachment_intent part); simpl.
  - intros ->. unfold ret. intros; simplify_eq; done.
  - intros _.
    destruct (String.eqb _ "text/html"); [|destruct (String.eqb _ "text/plain")];
      unfold ret; try (intros (t & w2 & Hp & Hr)%bind_Ok;
                       apply payload_decode_pure in Hp; unfold ret in Hr);
      intros; simplify_eq; done.
Qed.

Lemma for_each_attachments id l a w a' w1 :
  for_each (visit_part id) l a w = (Ok a', w1) ->
  l_attachments a' =
    l_attachments a ++
    map (attachment_ref id) (filter (fun p => is_attachment p = true) l) /\
  forall p, p ∈ l -> is_attachment p = true ->
            is_Some (blobs w1 !! att_path (attachment_ref id p)).
Proof.
  revert a w. induction l as [|p l IH]; intros a w; simpl.
  - unfold ret. intros; simplify_eq. rewrite app_nil_r.
    split; [done|]. intros p Hp. by apply elem_of_nil in Hp.
  - intros (a1 & w2 & Hv & Hrest)%bind_Ok.
    pose proof (for_each_frame _ _ _ _ _ _ Hrest) as [_ Hkept].
    destruct (IH _ _ Hrest) as [Hatt Hblobs].
    rewrite filter_cons. case_decide as Hp.
    + apply (visit_part_attachment _ _ _ _ _ _ Hp) in Hv
        as (name & Hn & -> & data & Hda & ->).
      assert (attachment_ref id p =
              mkAttachment name (attachment_path (storage_key id name))
                           (get_content_type p)) as Href.
      { unfold attachment_ref. by rewrite Hn. }
      simpl in Hatt. rewrite map_cons, Href, Hatt, <- app_assoc.
      split; [done|].
      intros q [Hq|Hq]%elem_of_cons Hqa; [|exact (Hblobs q Hq Hqa)].
      rewrite Hq. apply Hkept. unfold attachment_ref. rewrite Hn. simpl.
      rewrite lookup_insert_eq. eauto.
    + apply not_true_is_false in Hp.
      apply (visit_part_not_attachment _ _ _ _ _ _ Hp) in Hv as [Hsame ->].
      rewrite Hatt, Hsame. split; [done|].
      intros q [Hq|Hq]%elem_of_cons Hqa; [congruence | exact (Hblobs q Hq Hqa)].
Qed.


End ServerFacts.

Section Ingestion.
Context `{lib : Library}.

(** *** [handle_DATA] taken apart *)

Lemma single_part_pure msg w r w1 : single_part msg w = (r, w1) -> w1 = w.
Proof.
  unfold single_part, bind, ret.
  destruct (String.eqb _ _);
    destruct (payload_decode msg w) as [[t|e] w2] eqn:Hp;
    apply payload_decode_pure in Hp; intros; simplify_eq; done.
Qed.

Lemma body_of_frame id msg w r w1 :
  body_of id msg w = (r, w1) -> blobs_only w w1 /\ blobs_kept w w1.
Proof.
  unfold body_of. destruct (is_multipart msg).
  - apply for_each_frame.
  - intros ->%single_part_pure. split; [apply blobs_only_refl | by intros p].
Qed.

Lemma decompose_Ok now envelope w r w1 :
  decompose now envelope w = (Ok r, w1) ->
  exists msg a,
    message_from_bytes (content envelope) = Ok msg /\
    body_of (next_id w) msg w = (Ok a, w1) /\
    r = mkEmail (next_id w) (mail_from envelope) (rcpt_tos envelope)
                (default (Str "") (get "subject" msg))
                (default (Str now) (get "date" msg))
                (body_text a) (body_html a) (l_attachments a) (dict (items msg)).
Proof.
  unfold decompose. intros (id & w2 & Hid & Hk)%bind_Ok. simplify_eq.
  apply bind_Ok in Hk as (msg & w3 & Hm & Hk). unfold lift in Hm. simplify_eq.
  apply bind_Ok in Hk as (a & w4 & Ha & Hk). unfold ret in Hk. simplify_eq.
  exists msg, a. done.
Qed.

Lemma decompose_frame now envelope w r w1 :
  decompose now envelope w = (r, w1) -> blobs_only w w1 /\ blobs_kept w w1.
Proof.
  assert (Hrefl : blobs_only w w /\ blobs_kept w w).
  { split; [apply blobs_only_refl | by intros p]. }
  unfold decompose, bind, lift, ret.
  destruct (message_from_bytes (content envelope)) as [msg|e]; [|intros; simplify_eq; done].
  fold (next_id w). fold (body_of (next_id w) msg).
  destruct (body_of (next_id w) msg w) as [[a|e] w2] eqn:Hb;
    apply body_of_frame in Hb; intros; simplify_eq; done.
Qed.

Lemma accepted_not_rejected : accepted <> rejected.
Proof. discriminate. Qed.

Lemma handle_DATA_accepted now envelope w w' :
  handle_DATA now envelope w = (Ok accepted, w') ->
  exists r w1,
    decompose now envelope w = (Ok r, w1) /\
    blobs_only w w1 /\
    emails_file_fault w = NoFault /\
    forallb serializable (self_emails w ++ [r]) = true /\
    w' = set_emails_file (Holds (map dumped (self_emails w ++ [r])))
           (set_self_emails (self_emails w ++ [r]) w1).
Proof.
  unfold handle_DATA.
  destruct (handle_DATA_try now envelope w) as [[s|e] w2] eqn:Ht.
  2:{ intros (u & w3 & _ & Hr)%bind_Ok. unfold ret in Hr. simplify_eq. }
  intros; simplify_eq.
  unfold handle_DATA_try in Ht.
  apply bind_Ok in Ht as (r & w1 & Hd & Hk).
  apply bind_Ok in Hk as (u & w3 & Hc & Hr). unfold ret in Hr. simplify_eq.
  unfold commit in Hc. apply bind_Ok in Hc as (l & w4 & Hl & Hdump). simplify_eq.
  pose proof (decompose_frame _ _ _ _ _ Hd) as [Hb _].
  destruct (blobs_only_fields _ _ Hb) as (Hs & _ & _ & Hf & _).
  exists r, w1. split; [done|]. split; [done|].
  unfold dump_emails in Hdump. simpl in Hdump. rewrite Hf, Hs in Hdump.
  destruct (emails_file_fault w); [|by simplify_eq..].
  destruct (forallb serializable (self_emails w ++ [r])); simplify_eq.
  rewrite ?Hs. done.
Qed.

Lemma handle_DATA_new_record now envelope w w' :
  handle_DATA now envelope w = (Ok accepted, w') ->
  exists r w1, decompose now envelope w = (Ok r, w1) /\ new_record w w' r /\
               blobs w' = blobs w1.
Proof.
  intros (r & w1 & Hd & Hb & Hf & Hser & ->)%handle_DATA_accepted.
  exists r, w1. split; [done|]. split; [|done].
  apply decompose_Ok in Hd as (msg & a & _ & _ & ->). done.
Qed.



End Ingestion.

Section Claims.
Context `{lib : Library}.


(** C4 (amended).  A successful ingestion of a single-part message of type
    text/plain stores a record whose [content_text] is the payload's bytes
    read as UTF-8, whatever charset the message declares, whose
    [content_html] is unset and whose attachment list is empty. *)
Theorem single_part_plain_text now envelope w w' hdrs fname payload :
  message_from_bytes (content envelope) = Ok (Leaf hdrs "text/plain" fname payload) ->
  handle_DATA now envelope w = (Ok accepted, w') ->
  exists r,
    new_record w w' r /\
    utf8_valid payload = true /\
    content_text r = Some (String.string_of_list_byte payload) /\
    content_html r = None /\
    attachments r = [].
Proof.
  intros Hm (r & w1 & Hd & Hrec & _)%handle_DATA_new_record.
  apply decompose_Ok in Hd as (msg & a & Hm' & Hb & ->).
  rewrite Hm in Hm'. simplify_eq.
  unfold body_of, single_part in Hb. simpl in Hb.
  apply bind_Ok in Hb as (text & w2 & Hp & Hr).
  apply payload_decode_Ok in Hp as (b0 & Hb0 & Hdec & ->).
  unfold ret in Hr. simpl in Hb0. simplify_eq.
  apply decode_Ok in Hdec as [Hvalid ->].
  eexists. done.
Qed.

(** C9 (amended).  On a successful ingestion the record's [subject] is the
    value of the first subject header, or the empty string when there is
    none, and its [date] is the value of the first date header exactly as
    sent, or the ingestion timestamp when there is none. *)
Theorem subject_and_date_defaults now envelope w w' msg :
  message_from_bytes (content envelope) = Ok msg ->
  handle_DATA now envelope w = (Ok accepted, w') ->
  exists r,
    new_record w w' r /\
    (get "subject" msg = None -> subject r = Str "") /\
    (forall v, get "subject" msg = Some v -> subject r = v) /\
    (get "date" msg = None -> date r = Str now) /\
    (forall v, get "date" msg = Some v -> date r = v).
Proof.
  intros Hm (r & w1 & Hd & Hrec & _)%handle_DATA_new_record.
  apply decompose_Ok in Hd as (msg' & a & Hm' & Hb & ->).
  rewrite Hm in Hm'. simplify_eq.
  eexists. split; [done|]. simpl.
  repeat split; intros; by simplify_option_eq.
Qed.

(** *** Loops over several parts *)

Lemma for_each_app {A S} (f : A -> S -> M S) l1 l2 a w :
  for_each f (l1 ++ l2) a w = bind (for_each f l1 a) (for_each f l2) w.
Proof.
  revert a w. induction l1 as [|x l1 IH]; intros a w; simpl; [done|].
  unfold bind. destruct (f x a w) as [[a'|e] w1]; [|done].
  rewrite IH. reflexivity.
Qed.

Lemma visit_part_no_body id part a w a' w1 :
  is_plain_body part = false -> is_html_body part = false ->
  visit_part id part a w = (Ok a', w1) ->
  body_text a' = body_text a /\ body_html a' = body_html a.
Proof.
  unfold is_plain_body, is_html_body, visit_part. fold (attachment_intent part).
  destruct (attachment_intent part); simpl.
  - intros _ _. destruct (truthy _); [|unfold ret; intros; simplify_eq; done].
    intros (u & w2 & _ & Hr)%bind_Ok. unfold ret in Hr. simplify_eq. done.
  - intros -> ->. unfold ret; intros; simplify_eq; done.
Qed.

Lemma for_each_no_body id l a w a' w1 :
  Forall (fun q => is_plain_body q = false /\ is_html_body q = false) l ->
  for_each (visit_part id) l a w = (Ok a', w1) ->
  body_text a' = body_text a /\ body_html a' = body_html a.
Proof.
  intros Hl. revert a w. induction Hl as [|q l [Hp Hh] _ IH]; intros a w; simpl.
  - unfold ret; intros; simplify_eq; done.
  - intros (a1 & w2 & Hv & Hk)%bind_Ok.
    apply (visit_part_no_body _ _ _ _ _ _ Hp Hh) in Hv as [<- <-]. eauto.
Qed.


(** C5 (amended).  A plain-text body part always overwrites [content_text]:
    after a successful ingestion of a multipart message, [content_text] is
    the decoded payload of the last plain-text body part of the walk,
    provided no HTML body part comes after it.  With two plain-text body
    parts this is the second one. *)
Theorem last_plain_text_part_wins now envelope w w' msg pre p post :
  message_from_bytes (content envelope) = Ok msg ->
  is_multipart msg = true ->
  walk msg = pre ++ p :: post ->
  is_plain_body p = true ->
  Forall (fun q => is_plain_body q = false /\ is_html_body q = false) post ->
  handle_DATA now envelope w = (Ok accepted, w') ->
  exists r data text,
    new_record w w' r /\
    get_payload p = Some data /\ decode data = Ok text /\
    content_text r = Some text.
Proof.
  intros Hm Hmp Hwalk Hp Hpost (r & w1 & Hd & Hrec & _)%handle_DATA_new_record.
  apply decompose_Ok in Hd as (msg' & loc & Hm' & Hb & ->).
  rewrite Hm in Hm'. simplify_eq.
  unfold body_of in Hb. rewrite Hmp, Hwalk, for_each_app in Hb.
  apply bind_Ok in Hb as (l1 & w2 & _ & Hb). simpl in Hb.
  apply bind_Ok in Hb as (l2 & w3 & Hv & Hb).
  apply (visit_part_plain _ _ _ _ _ _ Hp) in Hv as (data & text & Hda & Hdec & -> & ->).
  apply (for_each_no_body _ _ _ _ _ _ Hpost) in Hb as [Hbt _].
  eexists. exists data, text. split; [exact Hrec|]. done.
Qed.



End Claims.

(** ** Deletion *)

Lemma remove_attachment_spec a u w :
  exists w1,
    remove_attachment a u w = (Ok tt, w1) /\
    blobs_only w w1 /\
    (remove_denied w (att_path a) = false -> blobs w1 !! att_path a = None) /\
    (forall q, blobs w !! q = None -> blobs w1 !! q = None).
Proof.
  unfold remove_attachment, try_except_OSError, os_remove.
  destruct (blobs w !! att_path a) as [d|] eqn:Hl.
  - destruct (remove_denied w (att_path a)) eqn:Hden.
    + exists w. split; [done|]. split; [apply blobs_only_refl|]. done.
    + eexists. split; [done|]. split; [apply blobs_only_set|]. simpl.
      split; [intros _; apply lookup_delete_eq|].
      intros q Hq. destruct (decide (att_path a = q)) as [->|Hne];
        [apply lookup_delete_eq | by rewrite lookup_delete_ne].
  - exists w. split; [done|]. split; [apply blobs_only_refl|]. done.
Qed.

Lemma remove_loop_spec l u w :
  exists w1,
    for_each remove_attachment l u w = (Ok tt, w1) /\
    blobs_only w w1 /\
    (forall a, a ∈ l -> remove_denied w (att_path a) = false ->
               blobs w1 !! att_path a = None) /\
    (forall q, blobs w !! q = None -> blobs w1 !! q = None).
Proof.
  revert u w. induction l as [|a l IH]; intros u w; simpl.
  - exists w. destruct u. split; [done|]. split; [apply blobs_only_refl|].
    split; [|done]. intros a Ha. by apply elem_of_nil in Ha.
  - destruct (remove_attachment_spec a u w) as (w1 & Hr & Hb1 & Hgone & Hstay).
    destruct (IH tt w1) as (w2 & Hl & Hb2 & Hgone2 & Hstay2).
    exists w2. rewrite (bind_eq _ _ _ _ _ Hr). split; [done|].
    split; [eapply blobs_only_trans; eauto|].
    destruct (blobs_only_fields _ _ Hb1) as (_ & _ & _ & _ & _ & Hden).
    split; [|by auto].
    intros a' [->|Hin]%elem_of_cons Hd.
    + auto.
    + apply Hgone2; [done|]. by rewrite Hden.
Qed.

Lemma find_has_id_filter {V} id (l : list (EmailOf V)) :
  find (has_id id) (filter (fun e => email_id e <> id) l) = None.
Proof.
  induction l as [|e l IH]; [done|].
  rewrite filter_cons. case_decide as Hne; [|done].
  simpl. unfold has_id at 1. destruct (Z.eqb_spec (email_id e) id); done.
Qed.

Lemma find_has_id_elem {V} id (l : list (EmailOf V)) e :
  e ∈ l -> email_id e = id -> exists e', find (has_id id) l = Some e'.
Proof.
  intros Hin Hid. induction Hin as [e l|e e0 l _ IH]; simpl.
  - unfold has_id. rewrite Hid, Z.eqb_refl. eauto.
  - destruct (has_id id e0); eauto.
Qed.

Lemma find_has_id_Some {V} id (l : list (EmailOf V)) e :
  find (has_id id) l = Some e -> e ∈ l /\ email_id e = id.
Proof.
  induction l as [|e0 l IH]; simpl; [done|].
  destruct (has_id id e0) eqn:Hh.
  - intros [= ->]. split; [left|]. by apply Z.eqb_eq.
  - intros [Hin Hid]%IH. split; [by right | done].
Qed.

(** *** Records in memory and in the file *)

Lemma dumped_loaded e : dumped (loaded e) = e.
Proof.
  destruct e as [i f t sb d ct ch at_ h]. unfold dumped, loaded, convert. simpl.
  f_equal. induction h as [|[k v] h IH]; simpl; [done|]. by rewrite IH.
Qed.

Lemma serializable_loaded e : serializable (loaded e) = true.
Proof.
  destruct e as [i f t sb d ct ch at_ h]. unfold serializable, loaded, convert.
  simpl. induction h as [|[k v] h IH]; simpl; done.
Qed.

Lemma loaded_dumped e : serializable e = true -> loaded (dumped e) = e.
Proof.
  destruct e as [i f t sb d ct ch at_ h]. unfold serializable, dumped, loaded, convert.
  simpl. intros [[Hs Hd]%andb_true_iff Hh]%andb_true_iff.
  destruct sb, d; try done. simpl. f_equal.
  induction h as [|[k v] h IH]; simpl in *; [done|].
  apply andb_true_iff in Hh as [Hv Hh]. destruct v; [|done].
  simpl. by rewrite (IH Hh).
Qed.

Lemma map_dumped_loaded l : map dumped (map loaded l) = l.
Proof. induction l as [|e l IH]; simpl; [done|]. by rewrite dumped_loaded, IH. Qed.

Lemma forallb_serializable_loaded l : forallb serializable (map loaded l) = true.
Proof.
  induction l as [|e l IH]; simpl; [done|]. by rewrite serializable_loaded, IH.
Qed.

Lemma map_loaded_dumped l :
  forallb serializable l = true -> map loaded (map dumped l) = l.
Proof.
  induction l as [|e l IH]; simpl; [done|].
  intros [He Hl]%andb_true_iff. by rewrite (loaded_dumped _ He), (IH Hl).
Qed.

Lemma filter_map_loaded id l :
  filter (fun e : Email => email_id e <> id) (map loaded l)
  = map loaded (filter (fun e : StoredEmail => email_id e <> id) l).
Proof.
  induction l as [|e l IH]; simpl; [done|].
  rewrite !filter_cons, IH. simpl.
  destruct (decide (email_id e <> id)); done.
Qed.

Lemma find_map_loaded id l :
  find (has_id id) (map loaded l) = option_map loaded (find (has_id id) l).
Proof.
  induction l as [|e l IH]; simpl; [done|].
  unfold has_id at 1 3. simpl. destruct (email_id e =? id); done.
Qed.

Lemma MailTrapHandler_Holds w l :
  emails_file w = Holds l -> MailTrapHandler w = (Ok (map loaded l), w).
Proof. unfold MailTrapHandler. by intros ->. Qed.

Lemma dump_emails_loaded l w :
  emails_file_fault w = NoFault ->
  dump_emails (map loaded l) w = (Ok tt, set_emails_file (Holds l) w).
Proof.
  intros Hfault. unfold dump_emails.
  by rewrite Hfault, forallb_serializable_loaded, map_dumped_loaded.
Qed.

Lemma delete_email_locals_found id w l e :
  emails_file w = Holds l ->
  find (has_id id) l = Some e ->
  emails_file_fault w = NoFault ->
  exists w1,
    delete_email_locals id w =
      (Ok (map loaded (filter (fun e => email_id e <> id) l), "Email deleted"), w1) /\
    emails_file w1 = Holds (filter (fun e => email_id e <> id) l) /\
    self_emails w1 = self_emails w /\
    (forall a, a ∈ attachments e -> remove_denied w (att_path a) = false ->
               blobs w1 !! att_path a = None) /\
    (forall q, blobs w !! q = None -> blobs w1 !! q = None).
Proof.
  intros Hfile Hfind Hfault.
  set (l' := filter (fun e => email_id e <> id) l).
  destruct (remove_loop_spec (attachments e) tt (set_emails_file (Holds l') w))
    as (w1 & Hloop & Hb & Hgone & Hstay).
  destruct (blobs_only_fields _ _ Hb) as (Hs & Hf & _).
  exists w1. split; [|done].
  unfold delete_email_locals.
  rewrite (bind_eq _ _ _ _ _ (MailTrapHandler_Holds _ _ Hfile)).
  rewrite find_map_loaded, Hfind. simpl. rewrite filter_map_loaded. fold l'.
  rewrite (bind_eq _ _ _ _ _ (dump_emails_loaded l' _ Hfault)).
  change (attachments (loaded e)) with (attachments e).
  rewrite (bind_eq _ _ _ _ _ Hloop). done.
Qed.

Lemma delete_email_not_found id w l :
  emails_file w = Holds l ->
  find (has_id id) l = None ->
  delete_email id w = (Raise (HTTPException 404 "Email not found"), w).
Proof.
  intros Hfile Hfind. unfold delete_email, delete_email_locals.
  apply bind_eq_Raise.
  rewrite (bind_eq _ _ _ _ _ (MailTrapHandler_Holds _ _ Hfile)).
  by rewrite find_map_loaded, Hfind.
Qed.

(** C7.  When the emails file holds a record with the identifier and the
    file can be rewritten, the first [delete_email] answers "Email deleted":
    no record with that identifier is left in the file, and every blob of the
    deleted record that the system lets go is gone from the disk.  None of
    this asks for the blobs to be there: a missing blob makes [os.remove]
    raise, which is swallowed.  The second [delete_email] with the same
    identifier raises the 404 "Email not found" and changes nothing. *)
Theorem delete_email_twice id w l e :
  emails_file w = Holds l ->
  find (has_id id) l = Some e ->
  emails_file_fault w = NoFault ->
  exists w1,
    delete_email id w = (Ok "Email deleted", w1) /\
    emails_file w1 = Holds (filter (fun e => email_id e <> id) l) /\
    (forall e', e' ∈ filter (fun e => email_id e <> id) l -> email_id e' <> id) /\
    (forall a, a ∈ attachments e -> remove_denied w (att_path a) = false ->
               blobs w1 !! att_path a = None) /\
    delete_email id w1 = (Raise (HTTPException 404 "Email not found"), w1).
Proof.
  intros Hfile Hfind Hfault.
  destruct (delete_email_locals_found _ _ _ _ Hfile Hfind Hfault)
    as (w1 & Hdel & Hfile1 & _ & Hgone & _).
  exists w1. split.
  { unfold delete_email. by rewrite (bind_eq _ _ _ _ _ Hdel). }
  split; [done|]. split.
  { intros e' [Hne _]%list_elem_of_filter. done. }
  split; [done|].
  eapply delete_email_not_found; [done|]. apply find_has_id_filter.
Qed.

(** C10.  When the emails file holds a list in which the identifier occurs
    and the file can be rewritten, [delete_email] leaves, both in its
    handler's list (as loaded from the file) and in the rewritten file, the
    list filtered on [id <> identifier]: exactly the records with another
    identifier, each one unchanged, in their former order. *)
Theorem delete_email_removes_exactly id w l :
  emails_file w = Holds l ->
  (exists e, e ∈ l /\ email_id e = id) ->
  emails_file_fault w = NoFault ->
  exists l' w1,
    delete_email_locals id w = (Ok (map loaded l', "Email deleted"), w1) /\
    emails_file w1 = Holds l' /\
    l' = filter (fun e => email_id e <> id) l /\
    (forall e, e ∈ l' <-> e ∈ l /\ email_id e <> id) /\
    l' `sublist_of` l.
Proof.
  intros Hfile (e & Hin & Hid) Hfault.
  destruct (find_has_id_elem _ _ _ Hin Hid) as (e' & Hfind).
  destruct (delete_email_locals_found _ _ _ _ Hfile Hfind Hfault)
    as (w1 & Hdel & Hfile1 & _).
  exists (filter (fun e => email_id e <> id) l), w1.
  split; [done|]. split; [done|]. split; [done|]. split.
  - intros e0. rewrite list_elem_of_filter. tauto.
  - apply sublist_filter.
Qed.

(** ** Identifiers *)

(** Within one handler's life a newly assigned identifier is larger than
    every identifier in its list, as long as those do not exceed the list's
    length; and that bound is kept. *)
Lemma identifier_fresh_within_one_handler `{lib : Library} now envelope w w' :
  (forall e, e ∈ self_emails w -> email_id e <= Z.of_nat (length (self_emails w))) ->
  handle_DATA now envelope w = (Ok accepted, w') ->
  exists r,
    new_record w w' r /\
    (forall e, e ∈ self_emails w -> email_id e < email_id r) /\
    (forall e, e ∈ self_emails w' -> email_id e <= Z.of_nat (length (self_emails w'))).
Proof.
  intros Hinv (r & w1 & _ & (Hs & Hf & Hid) & _)%handle_DATA_new_record.
  exists r. split; [done|]. split.
  - intros e He%Hinv. lia.
  - rewrite Hs, length_app. simpl.
    intros e [He%Hinv | ->%list_elem_of_singleton]%elem_of_app; lia.
Qed.

(** C1.  The identifier is the length of the handler's list plus one, and the
    list is read back from the emails file when the process starts.  Two
    ingestions into a fresh directory get 1 and 2; after [delete_email 1] and
    a restart the handler's list has one record, so the third ingestion gets
    2 again, while the record that already carries 2 is still stored. *)
Theorem identifier_reused_after_delete_and_restart :
  file_ids after_two = [1; 2] /\
  (delete_email 1 after_two).1 = Ok "Email deleted" /\
  file_ids after_delete = [2] /\
  (start after_delete).1 = Ok tt /\
  (ingest raw_three after_restart).1 = Ok accepted /\
  file_ids after_three = [2; 2].
Proof. vm_compute. done. Qed.

(** ** The statements on sample messages *)

Lemma single_part_plain_text_witness :
  exists r,
    new_record fresh (ingest raw_one fresh).2 r /\
    utf8_valid (b "first") = true /\
    content_text r = Some (String.string_of_list_byte (b "first")) /\
    content_html r = None /\
    attachments r = [].
Proof.
  apply (single_part_plain_text (lib := samples) clock (envelope_of raw_one)
           fresh _ [("Subject", Str "one")] None (b "first")).
  - reflexivity.
  - vm_compute. reflexivity.
Defined.

(** C4 as first stated asks for the decoded payload.  This text/plain message declares
    ISO-8859-1 and carries the bytes C3 A9, which in that charset are the
    two characters A-tilde and copyright sign.  It is accepted, and the
    stored text is the one character e-acute: the bytes read as UTF-8. *)
Lemma declared_charset_is_ignored :
  message_from_bytes (Library := edge_samples) raw_latin1 = Ok msg_latin1 /\
  is_multipart msg_latin1 = false /\
  get_content_type msg_latin1 = "text/plain" /\
  get_content_charset msg_latin1 = Some "iso-8859-1" /\
  declared_text msg_latin1 = Some "Ã©" /\
  (ingest_edge raw_latin1 fresh).1 = Ok accepted /\
  map content_text (self_emails (ingest_edge raw_latin1 fresh).2) = [Some "é"] /\
  Some "é" <> declared_text msg_latin1.
Proof. vm_compute. repeat split; done. Qed.

(** C9 as first stated asks for the ingestion timestamp when the date header cannot be
    parsed.  The header of this message is no date, yet it is stored as it
    came, and it differs from the timestamp. *)
Lemma unparsable_date_is_kept :
  message_from_bytes (Library := samples) raw_bad_date = Ok msg_bad_date /\
  get "date" msg_bad_date = Some (Str "not-a-date") /\
  (ingest raw_bad_date fresh).1 = Ok accepted /\
  map date (self_emails (ingest raw_bad_date fresh).2) = [Str "not-a-date"] /\
  Str "not-a-date" <> Str clock.
Proof. vm_compute. repeat split; done. Qed.

Lemma subject_and_date_defaults_witness :
  exists r,
    new_record fresh (ingest raw_one fresh).2 r /\
    (get "subject" msg_one = None -> subject r = Str "") /\
    (forall v, get "subject" msg_one = Some v -> subject r = v) /\
    (get "date" msg_one = None -> date r = Str clock) /\
    (forall v, get "date" msg_one = Some v -> date r = v).
Proof.
  apply (subject_and_date_defaults (lib := samples) clock (envelope_of raw_one)
           fresh _ msg_one).
  - reflexivity.
  - vm_compute. reflexivity.
Defined.



(** C5 as first stated asks for the first plain-text part.  This message has the
    plain-text body parts "first" and "second"; the stored text is
    "second". *)
Lemma second_plain_text_part_overwrites :
  message_from_bytes (Library := samples) raw_two_plain = Ok msg_two_plain /\
  (ingest raw_two_plain fresh).1 = Ok accepted /\
  map content_text (self_emails (ingest raw_two_plain fresh).2) = [Some "second"] /\
  decode (b "first") = Ok "first" /\
  Some "second" <> Some "first".
Proof. vm_compute. repeat split; done. Qed.

Lemma last_plain_text_part_wins_witness :
  exists r data text,
    new_record fresh (ingest raw_two_plain fresh).2 r /\
    get_payload (Leaf [("Content-Type", Str "text/plain")] "text/plain" None (b "second"))
      = Some data /\
    decode data = Ok text /\
    content_text r = Some text.
Proof.
  apply (last_plain_text_part_wins (lib := samples) clock
           (envelope_of raw_two_plain) fresh _ msg_two_plain
           [msg_two_plain;
            Leaf [("Content-Type", Str "text/plain")] "text/plain" None (b "first")]
           _ []).
  - reflexivity.
  - reflexivity.
  - reflexivity.
  - reflexivity.
  - constructor.
  - vm_compute. reflexivity.
Defined.




(** When it is the dump that fails, the record has already been appended to
    the handler's list. *)
Lemma failed_dump_keeps_record_in_memory :
  (ingest raw_one disk_full).1 = Ok rejected /\
  map email_id (self_emails (ingest raw_one disk_full).2) = [1] /\
  emails_file (ingest raw_one disk_full).2 = Corrupt.
Proof. vm_compute. repeat split; done. Qed.


(** C8: the [print] of the caught exception raises.  The attachment of this
    message is named with two kanji and a slash; the directory the slash
    asks for does not exist, so [open] raises an OSError whose message holds
    the path.  On a standard output that encodes ASCII only, the [print] in
    the [except] branch raises UnicodeEncodeError, and that is what leaves
    [handle_DATA] in place of an answer. *)
Theorem print_of_caught_error_raises :
  message_from_bytes (Library := edge_samples) raw_kanji = Ok msg_kanji /\
  get_filename part_kanji = Some kanji_name /\
  (handle_DATA_try (lib := edge_samples) clock (envelope_of raw_kanji) ascii_terminal).1
  = Raise (OSError (Some ("mail_storage/attachments/1_" +:+ kanji_name))) /\
  is_ascii (error_text (OSError (Some ("mail_storage/attachments/1_" +:+ kanji_name))))
  = false /\
  (ingest_edge raw_kanji ascii_terminal).1 = Raise UnicodeEncodeError /\
  (ingest_edge raw_kanji ascii_terminal).1 <> Ok accepted /\
  (ingest_edge raw_kanji ascii_terminal).1 <> Ok rejected.
Proof. vm_compute. repeat split; done. Qed.

Lemma delete_email_twice_witness :
  exists w1,
    delete_email 1 stored = (Ok "Email deleted", w1) /\
    emails_file w1 = Holds (filter (fun e => email_id e <> 1) [record_report; record_two]) /\
    (forall e', e' ∈ filter (fun e => email_id e <> 1) [record_report; record_two] ->
                email_id e' <> 1) /\
    (forall a, a ∈ attachments record_report ->
               remove_denied stored (att_path a) = false ->
               blobs w1 !! att_path a = None) /\
    delete_email 1 w1 = (Raise (HTTPException 404 "Email not found"), w1).
Proof.
  apply (delete_email_twice 1 stored [record_report; record_two] record_report);
    reflexivity.
Defined.

Lemma delete_email_removes_exactly_witness :
  exists l' w1,
    delete_email_locals 1 stored = (Ok (map loaded l', "Email deleted"), w1) /\
    emails_file w1 = Holds l' /\
    l' = filter (fun e => email_id e <> 1) [record_report; record_two] /\
    (forall e, e ∈ l' <-> e ∈ [record_report; record_two] /\ email_id e <> 1) /\
    l' `sublist_of` [record_report; record_two].
Proof.
  apply (delete_email_removes_exactly 1 stored [record_report; record_two]).
  - reflexivity.
  - exists record_report. split; [left | reflexivity].
  - reflexivity.
Defined.

(** * Further properties of the handler and the API functions *)

Lemma find_app_first {A} (f : A -> bool) l1 l2 :
  find f (l1 ++ l2) =
  match find f l1 with Some x => Some x | None => find f l2 end.
Proof.
  induction l1 as [|x l1 IH]; simpl; [done|]. destruct (f x); done.
Qed.

Lemma find_has_id_None id (l : list Email) :
  find (has_id id) l = None <-> forall e, e ∈ l -> email_id e <> id.
Proof.
  split.
  - intros Hnone e Hin Hid.
    destruct (find_has_id_elem _ _ _ Hin Hid) as (e' & He'). congruence.
  - intros Hall. destruct (find (has_id id) l) as [e|] eqn:Hf; [|done].
    apply find_has_id_Some in Hf as [Hin Hid]. by destruct (Hall e Hin).
Qed.

Lemma get_emails_Ok w l w' :
  get_emails w = (Ok l, w') ->
  w' = w /\
  ((exists l0, emails_file w = Holds l0 /\ l = map loaded l0) \/
   (emails_file w = Absent /\ l = [])).
Proof.
  unfold get_emails, bind, ret, MailTrapHandler.
  destruct (emails_file w); intros; simplify_eq; eauto.
Qed.

Lemma get_emails_Holds w l :
  emails_file w = Holds l -> get_emails w = (Ok (map loaded l), w).
Proof. intros Hf. unfold get_emails, bind, ret, MailTrapHandler. by rewrite Hf. Qed.

Lemma get_emails_new_record w w' r :
  new_record w w' r -> get_emails w' = (Ok (self_emails w'), w').
Proof.
  intros (_ & Hf & _ & Hser).
  by rewrite (get_emails_Holds _ _ Hf), (map_loaded_dumped _ Hser).
Qed.

Lemma get_email_loaded id w l :
  get_emails w = (Ok l, w) ->
  get_email id w =
  (match find (has_id id) l with
   | Some e => Ok e
   | None => Raise (HTTPException 404 "Email not found")
   end, w).
Proof.
  intros [_ Hl]%get_emails_Ok. unfold get_email, bind, ret, raise, MailTrapHandler.
  destruct Hl as [(l0 & -> & ->) | [-> ->]]; simpl; [|done].
  destruct (find (has_id id) (map loaded l0)); done.
Qed.

Lemma accept_recipients_fields envelope addresses :
  mail_from (accept_recipients envelope addresses) = mail_from envelope /\
  rcpt_tos (accept_recipients envelope addresses) = rcpt_tos envelope ++ addresses /\
  content (accept_recipients envelope addresses) = content envelope.
Proof.
  revert envelope. induction addresses as [|a l IH]; intros envelope; simpl.
  - by rewrite app_nil_r.
  - destruct (IH (handle_RCPT envelope a).1) as (Hf & Ht & Hc).
    unfold accept_recipients in *. simpl in *.
    rewrite Hf, Ht, Hc. by rewrite <- app_assoc.
Qed.

Section Retrieval.
Context `{lib : Library}.

(** X1.  The recipients accepted by successive [handle_RCPT] calls reach the
    stored record: its [to] is the envelope's list followed by the accepted
    addresses in the order of the calls, and its [from] is the envelope's
    sender. *)
Theorem recipients_reach_the_record now envelope addresses w w' :
  handle_DATA now (accept_recipients envelope addresses) w = (Ok accepted, w') ->
  exists r,
    new_record w w' r /\
    email_from r = mail_from envelope /\
    email_to r = rcpt_tos envelope ++ addresses.
Proof.
  intros (r & w1 & Hd & Hrec & _)%handle_DATA_new_record.
  apply decompose_Ok in Hd as (msg & a & _ & _ & ->).
  destruct (accept_recipients_fields envelope addresses) as (Hf & Ht & _).
  eexists. split; [exact Hrec|]. simpl. done.
Qed.

(** X2.  After an accepted ingestion [get_email] with the new identifier
    answers with the earliest record of the handler's list that carries it:
    the new record when no older record has that identifier, the older record
    otherwise. *)
Theorem get_email_after_ingestion now envelope w w' :
  handle_DATA now envelope w = (Ok accepted, w') ->
  exists r,
    new_record w w' r /\
    get_email (email_id r) w' =
      (Ok (default r (find (has_id (email_id r)) (self_emails w))), w').
Proof.
  intros (r & w1 & _ & Hrec & _)%handle_DATA_new_record.
  exists r. split; [done|].
  rewrite (get_email_loaded _ _ _ (get_emails_new_record _ _ _ Hrec)).
  destruct Hrec as (Hs & _). rewrite Hs, find_app_first.
  destruct (find (has_id (email_id r)) (self_emails w)); simpl; [done|].
  unfold has_id. by rewrite Z.eqb_refl.
Qed.

(** X3.  After an accepted ingestion [get_emails] answers with the handler's
    former list followed by the new record, whatever the emails file held
    before. *)
Theorem get_emails_after_ingestion now envelope w w' :
  handle_DATA now envelope w = (Ok accepted, w') ->
  exists r,
    new_record w w' r /\
    get_emails w' = (Ok (self_emails w ++ [r]), w').
Proof.
  intros (r & w1 & _ & Hrec & _)%handle_DATA_new_record.
  exists r. split; [done|].
  rewrite (get_emails_new_record _ _ _ Hrec). by destruct Hrec as (-> & _).
Qed.

(** X4.  [delete_email] works on a handler of its own and leaves the running
    handler's list alone, and the next accepted ingestion dumps that list:
    a record deleted through the API is back in the emails file, and served
    by [get_email], after the next accepted ingestion. *)
Theorem deleted_record_is_back_after_next_ingestion now envelope id w l e w2 :
  emails_file w = Holds l ->
  self_emails w = map loaded l ->
  find (has_id id) l = Some e ->
  emails_file_fault w = NoFault ->
  handle_DATA now envelope (delete_email id w).2 = (Ok accepted, w2) ->
  (delete_email id w).1 = Ok "Email deleted" /\
  (forall e', e' ∈ file_ids (delete_email id w).2 -> e' <> id) /\
  exists r,
    emails_file w2 = Holds (l ++ [dumped r]) /\
    get_email id w2 = (Ok (loaded e), w2).
Proof.
  intros Hfile Hself Hfind Hfault Hing.
  destruct (delete_email_locals_found _ _ _ _ Hfile Hfind Hfault)
    as (w1 & Hdel & Hfile1 & Hself1 & _).
  assert (delete_email id w = (Ok "Email deleted", w1)) as Hd.
  { unfold delete_email. by rewrite (bind_eq _ _ _ _ _ Hdel). }
  rewrite Hd in *. simpl in *. split; [done|]. split.
  { unfold file_ids. rewrite Hfile1.
    intros i (e0 & -> & [Hne _]%list_elem_of_filter)%list_elem_of_fmap. done. }
  apply handle_DATA_new_record in Hing as (r & w3 & _ & Hrec & _).
  exists r. pose proof Hrec as (Hs & Hf & _).
  rewrite Hself1, Hself in Hs. split.
  { by rewrite Hf, Hs, map_app, map_dumped_loaded. }
  rewrite (get_email_loaded _ _ _ (get_emails_new_record _ _ _ Hrec)).
  by rewrite Hs, find_app_first, find_map_loaded, Hfind.
Qed.

End Retrieval.

(** X5.  On a readable store [get_email] changes nothing and either answers
    with a listed record carrying the identifier, or raises the 404 "Email
    not found", the latter exactly when no listed record carries it. *)
Theorem get_email_found_or_404 id w l :
  get_emails w = (Ok l, w) ->
  (exists e, get_email id w = (Ok e, w) /\ e ∈ l /\ email_id e = id) \/
  (get_email id w = (Raise (HTTPException 404 "Email not found"), w) /\
   forall e, e ∈ l -> email_id e <> id).
Proof.
  intros Hl. rewrite (get_email_loaded _ _ _ Hl).
  destruct (find (has_id id) l) as [e|] eqn:Hf.
  - left. exists e. apply find_has_id_Some in Hf as [??]. done.
  - right. split; [done|]. by apply find_has_id_None.
Qed.

(** X6.  [delete_email] with an identifier no listed record carries raises
    the 404 "Email not found" and changes nothing: no file is rewritten and
    no blob is removed.  This covers a storage directory without an emails
    file. *)
Theorem delete_email_unknown_id id w l :
  get_emails w = (Ok l, w) ->
  (forall e, e ∈ l -> email_id e <> id) ->
  delete_email id w = (Raise (HTTPException 404 "Email not found"), w).
Proof.
  intros [_ Hl]%get_emails_Ok Hall%find_has_id_None.
  unfold delete_email, delete_email_locals, bind, ret, raise, MailTrapHandler.
  destruct Hl as [(l0 & -> & ->) | [-> ->]]; simpl.
  - by rewrite Hall.
  - done.
Qed.

(** ** More on deletion *)

Lemma remove_attachment_frame a u w r w1 :
  remove_attachment a u w = (r, w1) ->
  forall q, att_path a <> q -> blobs w1 !! q = blobs w !! q.
Proof.
  unfold remove_attachment, try_except_OSError, os_remove.
  destruct (blobs w !! att_path a); [destruct (remove_denied w (att_path a))|];
    intros; simplify_eq; try done.
  simpl. by rewrite lookup_delete_ne.
Qed.

Lemma remove_loop_frame l u w r w1 :
  for_each remove_attachment l u w = (r, w1) ->
  forall q, (forall a, a ∈ l -> att_path a <> q) -> blobs w1 !! q = blobs w !! q.
Proof.
  revert u w. induction l as [|a l IH]; intros u w; simpl.
  - unfold ret. intros; simplify_eq. done.
  - unfold bind. destruct (remove_attachment a u w) as [[u'|e] w2] eqn:Hr.
    + intros Hl q Hq. rewrite (IH _ _ Hl q) by (intros; apply Hq; by right).
      eapply remove_attachment_frame; [done|]. apply Hq. by left.
    + intros [= <- <-] q Hq. eapply remove_attachment_frame; [done|].
      apply Hq. by left.
Qed.

Lemma delete_email_locals_run id w l e :
  emails_file w = Holds l ->
  find (has_id id) l = Some e ->
  emails_file_fault w = NoFault ->
  exists w1,
    for_each remove_attachment (attachments e) tt
      (set_emails_file (Holds (filter (fun e => email_id e <> id) l)) w)
    = (Ok tt, w1) /\
    delete_email id w = (Ok "Email deleted", w1).
Proof.
  intros Hfile Hfind Hfault.
  set (l' := filter (fun e => email_id e <> id) l).
  destruct (remove_loop_spec (attachments e) tt (set_emails_file (Holds l') w))
    as (w1 & Hloop & _).
  exists w1. split; [done|].
  unfold delete_email, delete_email_locals.
  rewrite (bind_eq _ _ w (map loaded l', "Email deleted") w1); [done|].
  rewrite (bind_eq _ _ _ _ _ (MailTrapHandler_Holds _ _ Hfile)).
  rewrite find_map_loaded, Hfind. simpl. rewrite filter_map_loaded. fold l'.
  rewrite (bind_eq _ _ _ _ _ (dump_emails_loaded l' _ Hfault)).
  change (attachments (loaded e)) with (attachments e).
  rewrite (bind_eq _ _ _ _ _ Hloop). done.
Qed.

(** X7.  A successful [delete_email] touches nothing but the emails file and
    the files named by the attachments of the record it found: the running
    handler's list and the printed errors are as before, and every other
    file of the attachment store keeps its content.  In particular the blobs
    of a second record carrying the same identifier stay on disk although
    that record is dropped from the file. *)
Theorem delete_email_leaves_the_rest id w l e :
  emails_file w = Holds l ->
  find (has_id id) l = Some e ->
  emails_file_fault w = NoFault ->
  exists w1,
    delete_email id w = (Ok "Email deleted", w1) /\
    self_emails w1 = self_emails w /\
    stdout w1 = stdout w /\
    forall q, (forall a, a ∈ attachments e -> att_path a <> q) ->
              blobs w1 !! q = blobs w !! q.
Proof.
  intros Hfile Hfind Hfault.
  destruct (delete_email_locals_run _ _ _ _ Hfile Hfind Hfault) as (w1 & Hloop & Hdel).
  exists w1. split; [done|].
  destruct (remove_loop_spec (attachments e) tt
              (set_emails_file (Holds (filter (fun e => email_id e <> id) l)) w))
    as (w1' & Hloop' & Hb & _).
  rewrite Hloop in Hloop'. simplify_eq.
  destruct (blobs_only_fields _ _ Hb) as (Hs & _ & Ho & _).
  split; [done|]. split; [done|].
  intros q Hq. by rewrite (remove_loop_frame _ _ _ _ _ Hloop q Hq).
Qed.

(** X8.  When the emails file cannot be rewritten, [delete_email] of a listed
    identifier raises the OSError before any blob is removed: the attachment
    store and the running handler's list are unchanged; the emails file is
    unchanged if [open] failed and cut short if the dump failed. *)
Theorem delete_email_dump_failure id w l e :
  emails_file w = Holds l ->
  find (has_id id) l = Some e ->
  emails_file_fault w <> NoFault ->
  exists w1,
    delete_email id w = (Raise (OSError (named emails_file_path (emails_file_fault w))), w1) /\
    blobs w1 = blobs w /\
    self_emails w1 = self_emails w /\
    (emails_file_fault w = OpenFault -> w1 = w) /\
    (forall n, emails_file_fault w = WriteFault n -> emails_file w1 = Corrupt).
Proof.
  intros Hfile Hfind Hfault.
  unfold delete_email, delete_email_locals, bind, MailTrapHandler, dump_emails.
  rewrite Hfile, find_map_loaded, Hfind. simpl.
  destruct (emails_file_fault w) as [| |n]; [done|..]; eexists; (split; [done|]);
    simpl; repeat split; done.
Qed.

(** ** More on failed ingestions *)

Lemma handle_DATA_failed_commit `{lib : Library} now envelope w r w1 :
  decompose now envelope w = (Ok r, w1) ->
  emails_file_fault w <> NoFault ->
  handle_DATA now envelope w =
  (Ok rejected,
   set_stdout (stdout w ++ [OSError (named emails_file_path (emails_file_fault w))])
     (match emails_file_fault w with
      | WriteFault _ => set_emails_file Corrupt
      | _ => fun w => w
      end (set_self_emails (self_emails w ++ [r]) w1))).
Proof.
  intros Hd Hfault.
  pose proof (decompose_frame _ _ _ _ _ Hd) as [Hb _].
  destruct (blobs_only_fields _ _ Hb) as (Hs & Hf & Ho & Hff & _).
  unfold handle_DATA, handle_DATA_try.
  rewrite (bind_eq _ _ _ _ _ Hd). unfold commit, bind, dump_emails. simpl.
  rewrite Hff, Hs. destruct (emails_file_fault w); [done|..]; simpl; by rewrite Ho.
Qed.

(** X9.  When the message decomposes but the emails file cannot be written,
    [handle_DATA] answers with the error code and prints the OSError, yet the
    record stays appended to the handler's list: the next identifier is one
    past the rejected record's.  The emails file is unchanged if [open]
    failed and cut short if the dump failed. *)
Theorem failed_commit_keeps_record_in_memory `{lib : Library} now envelope w r w1 :
  decompose now envelope w = (Ok r, w1) ->
  emails_file_fault w <> NoFault ->
  exists w',
    handle_DATA now envelope w = (Ok rejected, w') /\
    self_emails w' = self_emails w ++ [r] /\
    next_id w' = email_id r + 1 /\
    stdout w' = stdout w ++ [OSError (named emails_file_path (emails_file_fault w))] /\
    blobs w' = blobs w1 /\
    (emails_file_fault w = OpenFault -> emails_file w' = emails_file w) /\
    (forall n, emails_file_fault w = WriteFault n -> emails_file w' = Corrupt).
Proof.
  intros Hd Hfault.
  rewrite (handle_DATA_failed_commit _ _ _ _ _ Hd Hfault).
  pose proof (decompose_frame _ _ _ _ _ Hd) as [Hb _].
  destruct (blobs_only_fields _ _ Hb) as (Hs & Hf & _).
  apply decompose_Ok in Hd as (msg & a & _ & _ & Hr).
  eexists. split; [done|].
  assert (email_id r = next_id w) as -> by (by rewrite Hr).
  destruct (emails_file_fault w) as [| |n]; [done|..]; simpl;
    unfold next_id; simpl; rewrite ?length_app; simpl;
    repeat split; try done; try lia.
Qed.

(** X10.  A dump that fails half-way takes the API down: after such a
    rejected ingestion [get_emails], [get_email], [delete_email] and a
    restart of the handler all raise the JSON decoding error and change
    nothing. *)
Theorem interrupted_dump_breaks_the_api `{lib : Library} now envelope w r w1 n id :
  decompose now envelope w = (Ok r, w1) ->
  emails_file_fault w = WriteFault n ->
  let w' := (handle_DATA now envelope w).2 in
  get_emails w' = (Raise JSONDecodeError, w') /\
  get_email id w' = (Raise JSONDecodeError, w') /\
  delete_email id w' = (Raise JSONDecodeError, w') /\
  start w' = (Raise JSONDecodeError, w').
Proof.
  intros Hd Hfault.
  rewrite (handle_DATA_failed_commit _ _ _ _ _ Hd) by (by rewrite Hfault).
  rewrite Hfault. simpl. done.
Qed.

(** X26.  When the record holds a [Header] object, or the handler's list
    already does, and the file system is in order, the dump raises a
    TypeError after the record was appended and the file truncated:
    [handle_DATA] answers with the error code, the record stays in the
    handler's list, and the emails file is cut short.  From then on this
    handler accepts no transmission, and a restart fails on the file. *)
Theorem header_object_stops_the_handler `{lib : Library} now envelope w r w1 :
  decompose now envelope w = (Ok r, w1) ->
  emails_file_fault w = NoFault ->
  forallb serializable (self_emails w ++ [r]) = false ->
  exists w',
    handle_DATA now envelope w = (Ok rejected, w') /\
    self_emails w' = self_emails w ++ [r] /\
    emails_file w' = Corrupt /\
    stdout w' = stdout w ++ [TypeError] /\
    blobs w' = blobs w1 /\
    (forall now2 envelope2, (handle_DATA now2 envelope2 w').1 <> Ok accepted) /\
    start w' = (Raise JSONDecodeError, w').
Proof.
  intros Hd Hfault Hser.
  pose proof (decompose_frame _ _ _ _ _ Hd) as [Hb _].
  destruct (blobs_only_fields _ _ Hb) as (Hs & Hf & Ho & Hff & _).
  assert (handle_DATA now envelope w =
          (Ok rejected,
           set_stdout (stdout w ++ [TypeError])
             (set_emails_file Corrupt
                (set_self_emails (self_emails w ++ [r]) w1)))) as Hh.
  { unfold handle_DATA, handle_DATA_try.
    rewrite (bind_eq _ _ _ _ _ Hd). unfold commit, bind, dump_emails. simpl.
    rewrite Hff, Hfault, Hs, Hser. simpl. by rewrite Ho. }
  eexists. split; [exact Hh|]. simpl. repeat (split; [done|]). split; [|done].
  intros now2 envelope2 Hacc.
  destruct (handle_DATA now2 envelope2 _) as [res w2] eqn:Hh2.
  simpl in Hacc. subst res.
  apply handle_DATA_accepted in Hh2 as (r2 & w3 & _ & _ & _ & Hser2 & _).
  simpl in Hser2. rewrite forallb_app, Hser in Hser2. done.
Qed.

(** ** More on what an ingestion stores *)

Section Bodies.
Context `{lib : Library}.

Lemma decompose_body now envelope w msg a w1 :
  message_from_bytes (content envelope) = Ok msg ->
  body_of (next_id w) msg w = (Ok a, w1) ->
  decompose now envelope w = (Ok (record_of now envelope w msg a), w1).
Proof.
  intros Hm Hb. unfold decompose, bind, lift, ret. rewrite Hm.
  fold (next_id w). fold (body_of (next_id w) msg). rewrite Hb. done.
Qed.

Lemma decompose_body_Raise now envelope w msg e w1 :
  message_from_bytes (content envelope) = Ok msg ->
  body_of (next_id w) msg w = (Raise e, w1) ->
  decompose now envelope w = (Raise e, w1).
Proof.
  intros Hm Hb. unfold decompose, bind, lift, ret. rewrite Hm.
  fold (next_id w). fold (body_of (next_id w) msg). rewrite Hb. done.
Qed.

Lemma lookup_header_is_str name h v :
  forallb (fun kv => is_str kv.2) h = true ->
  lookup_header name h = Some v -> is_str v = true.
Proof.
  induction h as [|[k v'] h IH]; simpl; [done|].
  intros [Hv Hh]%andb_true_iff.
  destruct (String.eqb _ _); [by intros [= <-] | auto].
Qed.

Lemma dict_set_is_str k v d :
  is_str v = true ->
  forallb (fun kv : string * HeaderValue => is_str kv.2) d = true ->
  forallb (fun kv : string * HeaderValue => is_str kv.2) (dict_set k v d) = true.
Proof.
  intros Hv. induction d as [|[k' v'] d IH]; simpl; [by rewrite Hv|].
  intros [Hv' Hd]%andb_true_iff.
  destruct (String.eqb k' k); simpl; [by rewrite Hv, Hd | by rewrite Hv', (IH Hd)].
Qed.

Lemma dict_is_str pairs :
  forallb (fun kv : string * HeaderValue => is_str kv.2) pairs = true ->
  forallb (fun kv : string * HeaderValue => is_str kv.2) (dict pairs) = true.
Proof.
  unfold dict.
  assert (forall d,
             forallb (fun kv : string * HeaderValue => is_str kv.2) d = true ->
             forallb (fun kv : string * HeaderValue => is_str kv.2) pairs = true ->
             forallb (fun kv : string * HeaderValue => is_str kv.2)
                     (fold_left (fun d kv => dict_set kv.1 kv.2 d) pairs d) = true)
    as Hgen; [|by apply Hgen].
  induction pairs as [|[k v] pairs IH]; intros d Hd; simpl; [done|].
  intros [Hv Hp]%andb_true_iff. apply IH; [|done]. by apply dict_set_is_str.
Qed.

(** A message whose header values are all strings gives a record the dump
    accepts. *)
Lemma record_of_serializable now envelope w msg a :
  str_headers msg = true -> serializable (record_of now envelope w msg a) = true.
Proof.
  unfold str_headers, serializable, record_of, get. simpl. intros Hh.
  rewrite (dict_is_str _ Hh), andb_true_r. apply andb_true_iff. split.
  - destruct (lookup_header "subject" (items msg)) eqn:Hl; [|done].
    by apply (lookup_header_is_str _ _ _ Hh Hl).
  - destruct (lookup_header "date" (items msg)) eqn:Hl; [|done].
    by apply (lookup_header_is_str _ _ _ Hh Hl).
Qed.

Lemma forallb_serializable_snoc l r :
  forallb serializable l = true -> serializable r = true ->
  forallb serializable (l ++ [r]) = true.
Proof. intros Hl Hr. rewrite forallb_app. simpl. by rewrite Hl, Hr. Qed.

Lemma handle_DATA_commit_ok now envelope w r w1 :
  decompose now envelope w = (Ok r, w1) ->
  emails_file_fault w = NoFault ->
  forallb serializable (self_emails w ++ [r]) = true ->
  exists w',
    handle_DATA now envelope w = (Ok accepted, w') /\
    new_record w w' r /\ blobs w' = blobs w1 /\ stdout w' = stdout w.
Proof.
  intros Hd Hfault Hser.
  pose proof (decompose_frame _ _ _ _ _ Hd) as [Hb _].
  destruct (blobs_only_fields _ _ Hb) as (Hs & Hf & Ho & Hff & _).
  unfold handle_DATA, handle_DATA_try.
  rewrite (bind_eq _ _ _ _ _ Hd). unfold commit, bind, dump_emails, ret. simpl.
  rewrite Hff, Hfault, Hs, Hser. eexists. split; [done|].
  apply decompose_Ok in Hd as (msg & a & _ & _ & ->).
  unfold new_record. simpl. done.
Qed.

Lemma handle_DATA_body_ok now envelope w msg a w1 :
  message_from_bytes (content envelope) = Ok msg ->
  body_of (next_id w) msg w = (Ok a, w1) ->
  emails_file_fault w = NoFault ->
  str_headers msg = true ->
  forallb serializable (self_emails w) = true ->
  exists w',
    handle_DATA now envelope w = (Ok accepted, w') /\
    new_record w w' (record_of now envelope w msg a) /\
    blobs w' = blobs w1 /\ stdout w' = stdout w.
Proof.
  intros Hm Hb Hfault Hstr Hser.
  apply (handle_DATA_commit_ok _ _ _ _ _ (decompose_body now _ _ _ _ _ Hm Hb) Hfault).
  apply forallb_serializable_snoc; [done|]. by apply record_of_serializable.
Qed.

(** A failed decomposition whose error message is within ASCII is printed
    and answered with the error code. *)
Lemma handle_DATA_decompose_Raise now envelope w e w1 :
  decompose now envelope w = (Raise e, w1) ->
  is_ascii (error_text e) = true ->
  handle_DATA now envelope w = (Ok rejected, set_stdout (stdout w1 ++ [e]) w1).
Proof.
  intros Hd Ha. unfold handle_DATA, handle_DATA_try.
  rewrite (bind_eq_Raise _ _ _ _ _ Hd). unfold bind, print_error, ret.
  by rewrite Ha.
Qed.

Lemma for_each_all_ignored id l a w :
  Forall (fun p => ignored p = true) l ->
  for_each (visit_part id) l a w = (Ok a, w).
Proof.
  induction 1 as [|p l Hp _ IH]; simpl; [done|].
  rewrite (visit_part_ignored _ _ _ Hp). unfold bind, ret. done.
Qed.

(** X11.  A multipart message none of whose parts is an attachment with a
    filename or a text/html or text/plain body part is accepted all the same,
    when the emails file can be written and the dump finds strings only (the
    header values of the message are strings, and so are those of the
    records already in the handler's list): the record has no text, no HTML
    and no attachment, and no blob is written. *)
Theorem multipart_without_effective_parts now envelope w msg :
  message_from_bytes (content envelope) = Ok msg ->
  is_multipart msg = true ->
  effective_parts msg = [] ->
  emails_file_fault w = NoFault ->
  str_headers msg = true ->
  forallb serializable (self_emails w) = true ->
  exists r w',
    handle_DATA now envelope w = (Ok accepted, w') /\
    new_record w w' r /\
    content_text r = None /\ content_html r = None /\ attachments r = [] /\
    blobs w' = blobs w.
Proof.
  intros Hm Hmp Heff Hfault Hstr Hser.
  assert (body_of (next_id w) msg w = (Ok init_locals, w)) as Hb.
  { unfold body_of. rewrite Hmp, for_each_effective.
    unfold effective_parts in Heff. by rewrite Heff. }
  destruct (handle_DATA_body_ok now _ _ _ _ _ Hm Hb Hfault Hstr Hser)
    as (w' & Hh & Hrec & Hbl & _).
  eexists _, w'. split; [done|]. split; [done|]. done.
Qed.

(** X12.  A single-part message of any content type other than text/html is
    taken as text: if its payload is valid UTF-8, the emails file can be
    written and the dump finds strings only (the header values of the
    message are strings, and so are those of the records already in the
    handler's list), it is accepted with [content_text] the payload read as
    UTF-8, [content_html] unset, no attachment and no blob written. *)
Theorem single_part_is_text_unless_html now envelope w hdrs ct fname payload :
  message_from_bytes (content envelope) = Ok (Leaf hdrs ct fname payload) ->
  ct <> "text/html" ->
  utf8_valid payload = true ->
  emails_file_fault w = NoFault ->
  forallb (fun kv => is_str kv.2) hdrs = true ->
  forallb serializable (self_emails w) = true ->
  exists r w',
    handle_DATA now envelope w = (Ok accepted, w') /\
    new_record w w' r /\
    content_text r = Some (String.string_of_list_byte payload) /\
    content_html r = None /\ attachments r = [] /\
    blobs w' = blobs w.
Proof.
  intros Hm Hct Hvalid Hfault Hstr Hser.
  assert (body_of (next_id w) (Leaf hdrs ct fname payload) w
          = (Ok (mkLocals [] None (Some (String.string_of_list_byte payload))), w)) as Hb.
  { unfold body_of, single_part, bind, ret, payload_decode, lift, decode. simpl.
    destruct (String.eqb_spec ct "text/html"); [done|]. by rewrite Hvalid. }
  destruct (handle_DATA_body_ok now _ _ _ _ _ Hm Hb Hfault Hstr Hser)
    as (w' & Hh & Hrec & Hbl & _).
  eexists _, w'. split; [done|]. split; [done|]. done.
Qed.

(** X13.  A single-part text/html message with a valid UTF-8 payload is
    accepted, when the emails file can be written and the dump finds strings
    only (the header values of the message are strings, and so are those of
    the records already in the handler's list), with [content_html] the
    payload read as UTF-8 and [content_text] what [html2text] makes of
    it. *)
Theorem single_part_html now envelope w hdrs fname payload :
  message_from_bytes (content envelope) = Ok (Leaf hdrs "text/html" fname payload) ->
  utf8_valid payload = true ->
  emails_file_fault w = NoFault ->
  forallb (fun kv => is_str kv.2) hdrs = true ->
  forallb serializable (self_emails w) = true ->
  exists r w',
    handle_DATA now envelope w = (Ok accepted, w') /\
    new_record w w' r /\
    content_html r = Some (String.string_of_list_byte payload) /\
    content_text r = Some (html2text (String.string_of_list_byte payload)) /\
    attachments r = [] /\
    blobs w' = blobs w.
Proof.
  intros Hm Hvalid Hfault Hstr Hser.
  set (html := String.string_of_list_byte payload).
  assert (body_of (next_id w) (Leaf hdrs "text/html" fname payload) w
          = (Ok (mkLocals [] (Some html) (Some (html2text html))), w)) as Hb.
  { unfold body_of, single_part, bind, ret, payload_decode, lift, decode. simpl.
    by rewrite Hvalid. }
  destruct (handle_DATA_body_ok now _ _ _ _ _ Hm Hb Hfault Hstr Hser)
    as (w' & Hh & Hrec & Hbl & _).
  eexists _, w'. split; [done|]. split; [done|]. done.
Qed.

(** X14.  A single-part message whose payload is not valid UTF-8 is rejected,
    whatever its content type: the answer is the error code, the decoding
    error is printed, and nothing else changes: no record in memory or in the
    file, no blob. *)
Theorem single_part_undecodable now envelope w hdrs ct fname payload :
  message_from_bytes (content envelope) = Ok (Leaf hdrs ct fname payload) ->
  utf8_valid payload = false ->
  handle_DATA now envelope w
  = (Ok rejected, set_stdout (stdout w ++ [UnicodeDecodeError]) w).
Proof.
  intros Hm Hvalid.
  apply handle_DATA_decompose_Raise; [|done].
  apply (decompose_body_Raise _ _ _ _ _ _ Hm).
  unfold body_of, single_part, bind, ret, payload_decode, lift, decode. simpl.
  rewrite Hvalid. by destruct (String.eqb ct "text/html").
Qed.

(** X15.  A message whose effective parts are a plain-text body part and an
    HTML body part, in either order, is stored with [content_html] the
    decoded HTML and no attachment.  Its [content_text] is the decoded plain
    text, except when the plain-text part comes first and is empty: then the
    HTML part, finding the text empty, puts the [html2text] rendering in its
    place. *)
Theorem plain_and_html_alternative now envelope w w' msg p h :
  message_from_bytes (content envelope) = Ok msg ->
  is_multipart msg = true ->
  is_plain_body p = true ->
  is_html_body h = true ->
  effective_parts msg = [p; h] \/ effective_parts msg = [h; p] ->
  handle_DATA now envelope w = (Ok accepted, w') ->
  exists r pb text hb html,
    new_record w w' r /\
    get_payload p = Some pb /\ decode pb = Ok text /\
    get_payload h = Some hb /\ decode hb = Ok html /\
    content_html r = Some html /\
    attachments r = [] /\
    (text <> "" -> content_text r = Some text) /\
    (effective_parts msg = [h; p] -> content_text r = Some text) /\
    (effective_parts msg = [p; h] -> text = "" ->
     content_text r = Some (html2text html)).
Proof.
  intros Hm Hmp Hp Hh Hparts (r & w1 & Hd & Hrec & _)%handle_DATA_new_record.
  exists r.
  destruct (decompose_Ok _ _ _ _ _ Hd) as (msg' & loc & Hm' & Hb & Hr).
  rewrite Hm in Hm'. injection Hm' as <-.
  unfold body_of in Hb. rewrite Hmp, for_each_effective in Hb.
  fold (effective_parts msg) in Hb.
  assert (p <> h) as Hne.
  { intros ->. unfold is_plain_body, is_html_body in *.
    destruct (negb _); [|done]. simpl in *.
    apply String.eqb_eq in Hp, Hh. congruence. }
  destruct Hparts as [Hparts | Hparts]; rewrite Hparts in Hb |- *; simpl in Hb;
    apply bind_Ok in Hb as (l1 & w2 & H1 & Hb);
    apply bind_Ok in Hb as (l2 & w3 & H2 & Hb); unfold ret in Hb;
    injection Hb as <- <-.
  - apply (visit_part_plain _ _ _ _ _ _ Hp) in H1 as (pb & text & Hpb & Hdp & -> & ->).
    apply (visit_part_html _ _ _ _ _ _ Hh) in H2 as (hb & html & Hhb & Hdh & -> & ->).
    exists pb, text, hb, html. split; [exact Hrec|]. rewrite Hr. simpl.
    repeat match goal with |- _ /\ _ => split end; try done.
    + intros Hne'. by destruct text.
    + intros [= ? ?]. done.
    + intros _ ->. done.
  - apply (visit_part_html _ _ _ _ _ _ Hh) in H1 as (hb & html & Hhb & Hdh & -> & ->).
    apply (visit_part_plain _ _ _ _ _ _ Hp) in H2 as (pb & text & Hpb & Hdp & -> & ->).
    exists pb, text, hb, html. split; [exact Hrec|]. rewrite Hr. simpl.
    repeat match goal with |- _ /\ _ => split end; try done.
    intros [= ? ?]. done.
Qed.

End Bodies.

Section Attachments.
Context `{lib : Library}.

(** X16.  After an accepted ingestion of a multipart message the record's
    attachment list has one entry for each part of the walk that declares
    attachment disposition and a filename, in walk order, each built from
    that part's filename, the key [{id}_{filename}] and its content type;
    and the path of every entry names a file of the attachment store. *)
Theorem attachments_follow_the_walk now envelope w w' msg :
  message_from_bytes (content envelope) = Ok msg ->
  is_multipart msg = true ->
  handle_DATA now envelope w = (Ok accepted, w') ->
  exists r,
    new_record w w' r /\
    attachments r =
      map (attachment_ref (email_id r))
          (filter (fun p => is_attachment p = true) (walk msg)) /\
    forall ref, ref ∈ attachments r -> is_Some (blobs w' !! att_path ref).
Proof.
  intros Hm Hmp (r & w1 & Hd & Hrec & Hbl)%handle_DATA_new_record.
  exists r. split; [done|].
  apply decompose_Ok in Hd as (msg' & loc & Hm' & Hb & Hr).
  rewrite Hm in Hm'. injection Hm' as <-.
  unfold body_of in Hb. rewrite Hmp in Hb.
  apply for_each_attachments in Hb as [Hatt Hblobs].
  assert (email_id r = next_id w) as -> by (by rewrite Hr).
  assert (attachments r = l_attachments loc) as -> by (by rewrite Hr).
  rewrite Hatt. simpl. split; [done|].
  intros ref (p & -> & [Hp Hin]%list_elem_of_filter)%list_elem_of_fmap.
  rewrite Hbl. auto.
Qed.

(** X17.  Two attachment parts of one message that declare the same filename
    get the same key: the record lists both, with one and the same path, and
    the file under that path holds the payload of the later part; the
    earlier payload is overwritten. *)
Theorem same_filename_twice_shares_the_blob now envelope w w' msg a1 a2 name :
  message_from_bytes (content envelope) = Ok msg ->
  is_multipart msg = true ->
  effective_parts msg = [a1; a2] ->
  is_attachment a1 = true -> is_attachment a2 = true ->
  get_filename a1 = Some name -> get_filename a2 = Some name ->
  handle_DATA now envelope w = (Ok accepted, w') ->
  exists r data,
    new_record w w' r /\
    let path := attachment_path (storage_key (email_id r) name) in
    attachments r = [mkAttachment name path (get_content_type a1);
                     mkAttachment name path (get_content_type a2)] /\
    get_payload a2 = Some data /\
    blobs w' !! path = Some data.
Proof.
  intros Hm Hmp Heff Ha1 Ha2 Hn1 Hn2 (r & w1 & Hd & Hrec & Hbl)%handle_DATA_new_record.
  exists r.
  apply decompose_Ok in Hd as (msg' & loc & Hm' & Hb & Hr).
  rewrite Hm in Hm'. injection Hm' as <-.
  unfold body_of in Hb. rewrite Hmp, for_each_effective in Hb.
  unfold effective_parts in Heff. rewrite Heff in Hb. simpl in Hb.
  apply bind_Ok in Hb as (l1 & w2 & H1 & Hb).
  apply bind_Ok in Hb as (l2 & w3 & H2 & Hb). unfold ret in Hb.
  injection Hb as <- <-.
  apply (visit_part_attachment _ _ _ _ _ _ Ha1) in H1
    as (n1 & Hn1' & -> & d1 & Hd1 & ->).
  apply (visit_part_attachment _ _ _ _ _ _ Ha2) in H2
    as (n2 & Hn2' & -> & d2 & Hd2 & ->).
  rewrite Hn1 in Hn1'. rewrite Hn2 in Hn2'. simplify_eq.
  exists d2. split; [done|]. rewrite Hbl. simpl.
  by rewrite lookup_insert_eq.
Qed.

(** X18.  An attachment part that is itself a multipart node, such as a
    forwarded message of type message/rfc822, has no payload bytes: the file
    is opened and nothing can be written to it.  If only ignored parts come
    before it, the ingestion is rejected with the TypeError printed, no
    record is stored, and an empty file is left under the part's key. *)
Theorem multipart_attachment_is_rejected now envelope w msg pre p post name :
  message_from_bytes (content envelope) = Ok msg ->
  is_multipart msg = true ->
  walk msg = pre ++ p :: post ->
  Forall (fun q => ignored q = true) pre ->
  is_attachment p = true ->
  get_filename p = Some name ->
  is_multipart p = true ->
  let path := attachment_path (storage_key (next_id w) name) in
  write_fault w path <> OpenFault ->
  exists w',
    handle_DATA now envelope w = (Ok rejected, w') /\
    self_emails w' = self_emails w /\
    emails_file w' = emails_file w /\
    stdout w' = stdout w ++ [TypeError] /\
    blobs w' = <[path := []]> (blobs w).
Proof.
  intros Hm Hmp Hwalk Hpre Hp Hn Hpm path Hfault.
  assert (visit_part (next_id w) p init_locals w
          = (Raise TypeError, set_blobs (<[path := []]> (blobs w)) w)) as Hv.
  { unfold is_attachment in Hp. apply andb_true_iff in Hp as [Hi Hf].
    unfold visit_part. fold (attachment_intent p). rewrite Hi, Hf, Hn. simpl.
    fold (storage_key (next_id w) name). fold path.
    assert (get_payload p = None) as -> by (by destruct p).
    unfold bind, write_blob.
    destruct (write_fault w path); done. }
  assert (body_of (next_id w) msg w
          = (Raise TypeError, set_blobs (<[path := []]> (blobs w)) w)) as Hb.
  { unfold body_of. rewrite Hmp, Hwalk, for_each_app.
    rewrite (bind_eq _ _ _ _ _ (for_each_all_ignored _ _ _ _ Hpre)).
    simpl. by rewrite (bind_eq_Raise _ _ _ _ _ Hv). }
  eexists. split.
  { apply handle_DATA_decompose_Raise;
      [apply (decompose_body_Raise _ _ _ _ _ _ Hm Hb) | done]. }
  done.
Qed.

End Attachments.

(** ** Identifiers over a run, headers, and keys *)

Lemma handle_all_ids `{lib : Library} l w rs w' :
  handle_all l w = (rs, w') ->
  Forall (fun r => r = Ok accepted) rs ->
  map email_id (self_emails w') =
    map email_id (self_emails w) ++ seqZ (next_id w) (Z.of_nat (length l)) /\
  (l <> [] -> emails_file w' = Holds (map dumped (self_emails w'))).
Proof.
  revert w rs. induction l as [|[now envelope] l IH]; intros w rs; simpl.
  - intros [= <- <-] _. rewrite seqZ_nil by lia. by rewrite app_nil_r.
  - destruct (handle_DATA now envelope w) as [r w1] eqn:Hh.
    destruct (handle_all l w1) as [rs' w2] eqn:Hrest.
    intros [= <- <-] [-> Hall]%Forall_cons.
    apply handle_DATA_new_record in Hh as (rec & w0 & _ & (Hs & Hf & Hid & _) & _).
    destruct (IH _ _ Hrest Hall) as [Hids Hfile].
    assert (next_id w1 = Z.succ (next_id w)) as Hnext.
    { unfold next_id. rewrite Hs, length_app. simpl. lia. }
    split.
    + rewrite Hids, Hs, map_app, Hnext. simpl. rewrite Hid.
      rewrite (seqZ_cons (next_id w)) by lia. rewrite <- app_assoc. simpl.
      do 3 f_equal. lia.
    + intros _. destruct l as [|x l]; [|by apply Hfile].
      simpl in Hrest. by simplify_eq.
Qed.

(** X19.  Transmissions accepted one after the other by one handler get
    consecutive identifiers starting at the length of its list plus one;
    from an empty list these are 1, 2, ..., n, and after the run the emails
    file holds the handler's list. *)
Theorem accepted_run_gets_consecutive_identifiers `{lib : Library} l w rs w' :
  handle_all l w = (rs, w') ->
  Forall (fun r => r = Ok accepted) rs ->
  map email_id (self_emails w') =
    map email_id (self_emails w) ++
    seqZ (Z.of_nat (length (self_emails w)) + 1) (Z.of_nat (length l)) /\
  (self_emails w = [] ->
   map email_id (self_emails w') = seqZ 1 (Z.of_nat (length l))) /\
  (l <> [] -> emails_file w' = Holds (map dumped (self_emails w'))).
Proof.
  intros Hrun Hall. destruct (handle_all_ids _ _ _ _ Hrun Hall) as [Hids Hfile].
  split; [done|]. split; [|done].
  intros Hempty. rewrite Hids. unfold next_id. by rewrite Hempty.
Qed.

Lemma dict_get_app {V} k (d1 d2 : list (string * V)) :
  dict_get k (d1 ++ d2) =
  match dict_get k d1 with Some v => Some v | None => dict_get k d2 end.
Proof.
  induction d1 as [|[k' v'] d1 IH]; simpl; [done|].
  by destruct (String.eqb k' k).
Qed.

Lemma dict_get_set {V} k k' (v : V) d :
  dict_get k (dict_set k' v d) = if String.eqb k' k then Some v else dict_get k d.
Proof.
  induction d as [|[k0 v0] d IH]; simpl.
  - by destruct (String.eqb k' k).
  - destruct (String.eqb_spec k0 k') as [->|Hne]; simpl.
    + destruct (String.eqb k' k); done.
    + rewrite IH. destruct (String.eqb_spec k0 k) as [->|Hne']; [|done].
      destruct (String.eqb_spec k' k) as [->|]; done.
Qed.

Lemma dict_set_keys {V} x k (v : V) d :
  x ∈ (dict_set k v d).*1 <-> x = k \/ x ∈ d.*1.
Proof.
  induction d as [|[k0 v0] d IH]; simpl.
  - rewrite list_elem_of_singleton. split; [by left | intros [?|Hx]; [done|]].
    by apply elem_of_nil in Hx.
  - destruct (String.eqb_spec k0 k) as [->|Hne]; simpl; rewrite !elem_of_cons.
    + tauto.
    + rewrite IH. tauto.
Qed.

Lemma dict_set_NoDup {V} k (v : V) d : NoDup d.*1 -> NoDup (dict_set k v d).*1.
Proof.
  induction d as [|[k0 v0] d IH]; simpl.
  - intros _. apply NoDup_singleton.
  - intros [Hnotin Hnd]%NoDup_cons.
    destruct (String.eqb_spec k0 k) as [->|Hne]; simpl; apply NoDup_cons.
    + done.
    + split; [|by apply IH]. rewrite dict_set_keys. intros [?|?]; done.
Qed.

Lemma dict_fold {V} (pairs d : list (string * V)) :
  NoDup d.*1 ->
  let d' := fold_left (fun d kv => dict_set kv.1 kv.2 d) pairs d in
  NoDup d'.*1 /\
  forall k, dict_get k d' =
            match dict_get k (reverse pairs) with
            | Some v => Some v
            | None => dict_get k d
            end.
Proof.
  revert d. induction pairs as [|[k0 v0] pairs IH]; intros d Hnd; simpl.
  - done.
  - destruct (IH (dict_set k0 v0 d) (dict_set_NoDup _ _ _ Hnd)) as [Hnd' Hget].
    split; [done|]. intros k. rewrite Hget, reverse_cons, dict_get_app, dict_get_set.
    simpl. destruct (dict_get k (reverse pairs)); [done|].
    by destruct (String.eqb k0 k).
Qed.

(** X20.  The [headers] of a stored record hold every header name of the
    message once, with the value of its last occurrence under exactly that
    spelling, whereas [subject] and [date] take the first header whose name
    matches without regard to case. *)
Theorem headers_keep_the_last_occurrence `{lib : Library} now envelope w w' msg :
  message_from_bytes (content envelope) = Ok msg ->
  handle_DATA now envelope w = (Ok accepted, w') ->
  exists r,
    new_record w w' r /\
    NoDup (headers r).*1 /\
    (forall k, dict_get k (headers r) = dict_get k (reverse (items msg))) /\
    subject r = default (Str "") (lookup_header "subject" (items msg)).
Proof.
  intros Hm (r & w1 & Hd & Hrec & _)%handle_DATA_new_record.
  exists r. split; [done|].
  apply decompose_Ok in Hd as (msg' & a & Hm' & _ & ->).
  rewrite Hm in Hm'. injection Hm' as <-. simpl. unfold dict.
  destruct (dict_fold (items msg) [] (NoDup_nil_2)) as [Hnd Hget].
  split; [done|]. split; [|done].
  intros k. rewrite (Hget k). by destruct (dict_get k (reverse (items msg))).
Qed.

Lemma pretty_N_char_no_underscore x : pretty_N_char x <> underscore.
Proof. unfold pretty_N_char. by repeat case_match. Qed.

Lemma pretty_N_go_no_underscore x s :
  no_underscore s -> no_underscore (pretty_N_go x s).
Proof.
  revert s. induction (N.lt_wf_0 x) as [x _ IH]; intros s Hs.
  assert (x = 0 \/ 0 < x)%N as [->|Hx] by lia.
  - by rewrite pretty_N_go_0.
  - rewrite pretty_N_go_step by done. apply IH.
    + by apply N.div_lt.
    + split; [apply pretty_N_char_no_underscore | done].
Qed.

Lemma pretty_Z_no_underscore (z : Z) : no_underscore (pretty z).
Proof.
  assert (forall p : positive, no_underscore (pretty p)) as Hpos.
  { intros p. unfold pretty, pretty_positive, pretty, pretty_N.
    case_decide; [by compute|]. by apply pretty_N_go_no_underscore. }
  destruct z as [|p|p]; unfold pretty, pretty_Z.
  - by compute.
  - apply Hpos.
  - split; [by compute | apply Hpos].
Qed.

Lemma underscore_split s1 s2 t1 t2 :
  no_underscore s1 -> no_underscore s2 ->
  s1 +:+ String underscore t1 = s2 +:+ String underscore t2 ->
  s1 = s2 /\ t1 = t2.
Proof.
  revert s2. induction s1 as [|c1 s1 IH]; intros [|c2 s2]; simpl.
  - intros _ _ [= ->]. done.
  - intros _ [Hc _] [= Heq _]. by destruct Hc.
  - intros [Hc _] _ [= Heq _]. by destruct Hc.
  - intros [_ H1] [_ H2] [= -> Heq]. destruct (IH _ H1 H2 Heq) as [-> ->]. done.
Qed.

Lemma storage_key_parts i j f g :
  storage_key i f = storage_key j g -> i = j /\ f = g.
Proof.
  unfold storage_key. intros Heq.
  destruct (underscore_split (pretty i) (pretty j) f g) as [Hp ->];
    [apply pretty_Z_no_underscore .. | exact Heq |].
  split; [|done]. by apply (inj pretty).
Qed.

(** X21.  The key [{id}_{filename}] determines both the identifier and the
    filename: two attachments get the same key only if they belong to the
    same identifier and declare the same filename. *)
Theorem storage_key_injective i j f g :
  storage_key i f = storage_key j g -> i = j /\ f = g.
Proof. apply storage_key_parts. Qed.

(** ** Which blobs an ingestion can touch *)

Section BlobFrame.
Context `{lib : Library}.

Lemma write_blob_frame path data w r w1 :
  write_blob path data w = (r, w1) ->
  forall q, q <> path -> blobs w1 !! q = blobs w !! q.
Proof.
  unfold write_blob. intros Hw q Hq.
  destruct (write_fault w path), data; simplify_eq; simpl;
    rewrite ?lookup_insert_ne by done; done.
Qed.

Lemma visit_part_blob_frame id part a w r w1 :
  visit_part id part a w = (r, w1) ->
  forall q, (forall n, q <> attachment_path (storage_key id n)) ->
            blobs w1 !! q = blobs w !! q.
Proof.
  intros Hv q Hq. revert Hv. unfold visit_part.
  destruct (contains _ _).
  - destruct (truthy _); [|unfold ret; intros; simplify_eq; done].
    unfold bind. destruct (write_blob _ _ w) as [[u|e] w2] eqn:Hw;
      unfold ret; intros; simplify_eq;
      eapply write_blob_frame; eauto; apply Hq.
  - destruct (String.eqb _ "text/html"); [|destruct (String.eqb _ "text/plain")];
      unfold bind, ret;
      try (destruct (payload_decode part w) as [[t|e] w2] eqn:Hp;
           apply payload_decode_pure in Hp);
      intros; simplify_eq; done.
Qed.

Lemma for_each_blob_frame id l a w r w1 :
  for_each (visit_part id) l a w = (r, w1) ->
  forall q, (forall n, q <> attachment_path (storage_key id n)) ->
            blobs w1 !! q = blobs w !! q.
Proof.
  revert a w. induction l as [|p l IH]; intros a w; simpl.
  - unfold ret. intros; simplify_eq. done.
  - unfold bind. destruct (visit_part id p a w) as [[a'|e] w2] eqn:Hv.
    + intros Hrest q Hq. rewrite (IH _ _ Hrest q Hq).
      by eapply visit_part_blob_frame.
    + intros [= <- <-] q Hq. by eapply visit_part_blob_frame.
Qed.

(** X22.  An ingestion, accepted or not, writes only under keys of its own
    identifier: every path of the attachment store that is not the path of
    a key [{id}_{name}] with the identifier of this ingestion holds after
    the call what it held before, or is still absent.  Nothing is said of
    how keys map to paths. *)
Theorem ingestion_writes_only_under_its_own_keys now envelope w q :
  (forall n, q <> attachment_path (storage_key (next_id w) n)) ->
  blobs (handle_DATA now envelope w).2 !! q = blobs w !! q.
Proof.
  intros Hq.
  assert (forall r w1, decompose now envelope w = (r, w1) ->
                       blobs w1 !! q = blobs w !! q) as Hdec.
  { intros r w1. unfold decompose, bind, lift, ret.
    destruct (message_from_bytes (content envelope)) as [msg|e];
      [|intros; simplify_eq; done].
    fold (next_id w). fold (body_of (next_id w) msg).
    destruct (body_of (next_id w) msg w) as [[a|e] w2] eqn:Hb;
      intros; simplify_eq;
      (unfold body_of in Hb; destruct (is_multipart msg);
       [by eapply for_each_blob_frame | by apply single_part_pure in Hb as ->]). }
  assert (forall r w1, handle_DATA_try now envelope w = (r, w1) ->
                       blobs w1 !! q = blobs w !! q) as Htry.
  { intros r w1. unfold handle_DATA_try, bind.
    destruct (decompose now envelope w) as [[r0|e] w2] eqn:Hd;
      [|intros; simplify_eq; by eapply Hdec].
    unfold commit, bind, dump_emails, ret. simpl.
    destruct (emails_file_fault w2); [destruct (forallb _ _)|..];
      intros; simplify_eq; simpl; by eapply Hdec. }
  unfold handle_DATA.
  destruct (handle_DATA_try now envelope w) as [[t|e] w1] eqn:Ht; simpl;
    [by eapply Htry|].
  unfold bind, print_error, ret.
  destruct (is_ascii (error_text e) || stdout_encodes w1 (error_text e)); simpl;
    by eapply Htry.
Qed.

End BlobFrame.

(** ** The further properties on sample messages *)

Lemma recipients_reach_the_record_witness :
  exists r,
    new_record fresh
      (handle_DATA (lib := samples) clock
         (accept_recipients (mkEnvelope "app@example.test" [] raw_one)
                            ["a@example.test"; "b@example.test"]) fresh).2 r /\
    email_from r = "app@example.test" /\
    email_to r = [] ++ ["a@example.test"; "b@example.test"].
Proof.
  apply (recipients_reach_the_record (lib := samples) clock
           (mkEnvelope "app@example.test" [] raw_one)
           ["a@example.test"; "b@example.test"] fresh).
  vm_compute. reflexivity.
Defined.

Lemma get_email_after_ingestion_witness :
  exists r,
    new_record fresh (ingest raw_one fresh).2 r /\
    get_email (email_id r) (ingest raw_one fresh).2 =
      (Ok (default r (find (has_id (email_id r)) (self_emails fresh))),
       (ingest raw_one fresh).2).
Proof.
  apply (get_email_after_ingestion (lib := samples) clock (envelope_of raw_one) fresh).
  vm_compute. reflexivity.
Defined.

Lemma get_emails_after_ingestion_witness :
  exists r,
    new_record fresh (ingest raw_one fresh).2 r /\
    get_emails (ingest raw_one fresh).2 =
      (Ok (self_emails fresh ++ [r]), (ingest raw_one fresh).2).
Proof.
  apply (get_emails_after_ingestion (lib := samples) clock (envelope_of raw_one) fresh).
  vm_compute. reflexivity.
Defined.

Lemma deleted_record_is_back_witness :
  (delete_email 1 running).1 = Ok "Email deleted" /\
  (forall e', e' ∈ file_ids (delete_email 1 running).2 -> e' <> 1) /\
  exists r,
    emails_file (ingest raw_three (delete_email 1 running).2).2
      = Holds ([record_report; record_two] ++ [dumped r]) /\
    get_email 1 (ingest raw_three (delete_email 1 running).2).2
      = (Ok (loaded record_report), (ingest raw_three (delete_email 1 running).2).2).
Proof.
  apply (deleted_record_is_back_after_next_ingestion (lib := samples) clock
           (envelope_of raw_three) 1 running [record_report; record_two]
           record_report).
  - reflexivity.
  - reflexivity.
  - reflexivity.
  - reflexivity.
  - vm_compute. reflexivity.
Defined.

Lemma get_email_found_or_404_witness :
  (exists e, get_email 2 stored = (Ok e, stored) /\
             e ∈ map loaded [record_report; record_two] /\ email_id e = 2) \/
  (get_email 2 stored = (Raise (HTTPException 404 "Email not found"), stored) /\
   forall e, e ∈ map loaded [record_report; record_two] -> email_id e <> 2).
Proof.
  apply (get_email_found_or_404 2 stored (map loaded [record_report; record_two])).
  reflexivity.
Defined.

Lemma delete_email_unknown_id_witness :
  delete_email 7 fresh = (Raise (HTTPException 404 "Email not found"), fresh).
Proof.
  apply (delete_email_unknown_id 7 fresh []).
  - reflexivity.
  - intros e He. by apply elem_of_nil in He.
Defined.

Lemma delete_email_leaves_the_rest_witness :
  exists w1,
    delete_email 1 stored = (Ok "Email deleted", w1) /\
    self_emails w1 = self_emails stored /\
    stdout w1 = stdout stored /\
    forall q, (forall a, a ∈ attachments record_report -> att_path a <> q) ->
              blobs w1 !! q = blobs stored !! q.
Proof.
  apply (delete_email_leaves_the_rest 1 stored [record_report; record_two]
           record_report); reflexivity.
Defined.

Lemma delete_email_dump_failure_witness :
  exists w1,
    delete_email 1 read_only
    = (Raise (OSError (named emails_file_path (emails_file_fault read_only))), w1) /\
    blobs w1 = blobs read_only /\
    self_emails w1 = self_emails read_only /\
    (emails_file_fault read_only = OpenFault -> w1 = read_only) /\
    (forall n, emails_file_fault read_only = WriteFault n ->
               emails_file w1 = Corrupt).
Proof.
  apply (delete_email_dump_failure 1 read_only [record_report; record_two]
           record_report); [reflexivity | reflexivity | discriminate].
Defined.

Lemma failed_commit_keeps_record_in_memory_witness :
  exists w',
    ingest raw_one disk_full = (Ok rejected, w') /\
    self_emails w' = self_emails disk_full ++ [loaded record_one] /\
    next_id w' = email_id (loaded record_one) + 1 /\
    stdout w' = stdout disk_full
                ++ [OSError (named emails_file_path (emails_file_fault disk_full))] /\
    blobs w' = blobs disk_full /\
    (emails_file_fault disk_full = OpenFault ->
     emails_file w' = emails_file disk_full) /\
    (forall n, emails_file_fault disk_full = WriteFault n ->
               emails_file w' = Corrupt).
Proof.
  apply (failed_commit_keeps_record_in_memory (lib := samples) clock
           (envelope_of raw_one) disk_full (loaded record_one) disk_full);
    [vm_compute; reflexivity | discriminate].
Defined.

Lemma interrupted_dump_breaks_the_api_witness :
  let w' := (ingest raw_one disk_full).2 in
  get_emails w' = (Raise JSONDecodeError, w') /\
  get_email 1 w' = (Raise JSONDecodeError, w') /\
  delete_email 1 w' = (Raise JSONDecodeError, w') /\
  start w' = (Raise JSONDecodeError, w').
Proof.
  apply (interrupted_dump_breaks_the_api (lib := samples) clock
           (envelope_of raw_one) disk_full (loaded record_one) disk_full 0%nat 1);
    [vm_compute; reflexivity | reflexivity].
Defined.

Lemma multipart_without_effective_parts_witness :
  exists r w',
    ingest' raw_inline_image fresh = (Ok accepted, w') /\
    new_record fresh w' r /\
    content_text r = None /\ content_html r = None /\ attachments r = [] /\
    blobs w' = blobs fresh.
Proof.
  apply (multipart_without_effective_parts (lib := more_samples) clock
           (envelope_of raw_inline_image) fresh msg_inline_image);
    reflexivity.
Defined.

Lemma single_part_is_text_unless_html_witness :
  exists r w',
    ingest' raw_pdf running = (Ok accepted, w') /\
    new_record running w' r /\
    content_text r = Some (String.string_of_list_byte (b "%PDF")) /\
    content_html r = None /\ attachments r = [] /\
    blobs w' = blobs running.
Proof.
  apply (single_part_is_text_unless_html (lib := more_samples) clock
           (envelope_of raw_pdf) running
           [("Content-Type", Str "application/pdf")] "application/pdf" None (b "%PDF"));
    [reflexivity | discriminate | reflexivity | reflexivity | reflexivity
    | reflexivity].
Defined.

Lemma single_part_html_witness :
  exists r w',
    ingest' raw_html fresh = (Ok accepted, w') /\
    new_record fresh w' r /\
    content_html r = Some (String.string_of_list_byte (b "<p>Hi</p>")) /\
    content_text r =
      Some (html2text (Library := more_samples)
              (String.string_of_list_byte (b "<p>Hi</p>"))) /\
    attachments r = [] /\
    blobs w' = blobs fresh.
Proof.
  apply (single_part_html (lib := more_samples) clock (envelope_of raw_html) fresh
           [("Content-Type", Str "text/html")] None (b "<p>Hi</p>"));
    reflexivity.
Defined.

Lemma single_part_undecodable_witness :
  ingest' raw_bad fresh
  = (Ok rejected, set_stdout (stdout fresh ++ [UnicodeDecodeError]) fresh).
Proof.
  apply (single_part_undecodable (lib := more_samples) clock (envelope_of raw_bad)
           fresh [("Subject", Str "bad")] "text/plain" None [xff]);
    reflexivity.
Defined.

Lemma plain_and_html_alternative_witness :
  exists r pb text hb html,
    new_record fresh (ingest' raw_alternative fresh).2 r /\
    get_payload part_plain_hi = Some pb /\ decode pb = Ok text /\
    get_payload part_html = Some hb /\ decode hb = Ok html /\
    content_html r = Some html /\
    attachments r = [] /\
    (text <> "" -> content_text r = Some text) /\
    (effective_parts msg_alternative = [part_html; part_plain_hi] ->
     content_text r = Some text) /\
    (effective_parts msg_alternative = [part_plain_hi; part_html] -> text = "" ->
     content_text r = Some (html2text (Library := more_samples) html)).
Proof.
  apply (plain_and_html_alternative (lib := more_samples) clock
           (envelope_of raw_alternative) fresh _ msg_alternative
           part_plain_hi part_html).
  - reflexivity.
  - reflexivity.
  - reflexivity.
  - reflexivity.
  - left. vm_compute. reflexivity.
  - vm_compute. reflexivity.
Defined.

Lemma attachments_follow_the_walk_witness :
  exists r,
    new_record fresh (ingest' raw_report fresh).2 r /\
    attachments r =
      map (attachment_ref (lib := more_samples) (email_id r))
          (filter (fun p => is_attachment p = true) (walk msg_report)) /\
    forall ref, ref ∈ attachments r ->
                is_Some (blobs (ingest' raw_report fresh).2 !! att_path ref).
Proof.
  apply (attachments_follow_the_walk (lib := more_samples) clock
           (envelope_of raw_report) fresh _ msg_report).
  - reflexivity.
  - reflexivity.
  - vm_compute. reflexivity.
Defined.

Lemma same_filename_twice_shares_the_blob_witness :
  exists r data,
    new_record fresh (ingest' raw_twins fresh).2 r /\
    let path :=
      attachment_path (Library := more_samples) (storage_key (email_id r) "a.txt") in
    attachments r = [mkAttachment "a.txt" path (get_content_type (twin "one"));
                     mkAttachment "a.txt" path (get_content_type (twin "two"))] /\
    get_payload (twin "two") = Some data /\
    blobs (ingest' raw_twins fresh).2 !! path = Some data.
Proof.
  apply (same_filename_twice_shares_the_blob (lib := more_samples) clock
           (envelope_of raw_twins) fresh _ msg_twins (twin "one") (twin "two")
           "a.txt").
  - reflexivity.
  - reflexivity.
  - vm_compute. reflexivity.
  - reflexivity.
  - reflexivity.
  - reflexivity.
  - reflexivity.
  - vm_compute. reflexivity.
Defined.

Lemma multipart_attachment_is_rejected_witness :
  let path :=
    attachment_path (Library := more_samples) (storage_key (next_id fresh) "fwd.eml") in
  exists w',
    ingest' raw_forward fresh = (Ok rejected, w') /\
    self_emails w' = self_emails fresh /\
    emails_file w' = emails_file fresh /\
    stdout w' = stdout fresh ++ [TypeError] /\
    blobs w' = <[path := []]> (blobs fresh).
Proof.
  apply (multipart_attachment_is_rejected (lib := more_samples) clock
           (envelope_of raw_forward) fresh msg_forward [msg_forward] part_forward
           [Leaf [("Subject", Str "inner")] "text/plain" None (b "hi")] "fwd.eml").
  - reflexivity.
  - reflexivity.
  - reflexivity.
  - repeat constructor.
  - reflexivity.
  - reflexivity.
  - reflexivity.
  - discriminate.
Defined.

Lemma accepted_run_gets_consecutive_identifiers_witness :
  let run := handle_all (lib := samples)
               [(clock, envelope_of raw_one); (clock, envelope_of raw_two);
                (clock, envelope_of raw_three)] fresh in
  map email_id (self_emails run.2) =
    map email_id (self_emails fresh) ++
    seqZ (Z.of_nat (length (self_emails fresh)) + 1) (Z.of_nat 3) /\
  (self_emails fresh = [] ->
   map email_id (self_emails run.2) = seqZ 1 (Z.of_nat 3)) /\
  ([(clock, envelope_of raw_one); (clock, envelope_of raw_two);
    (clock, envelope_of raw_three)] <> [] ->
   emails_file run.2 = Holds (map dumped (self_emails run.2))).
Proof.
  apply (accepted_run_gets_consecutive_identifiers (lib := samples)
           [(clock, envelope_of raw_one); (clock, envelope_of raw_two);
            (clock, envelope_of raw_three)] fresh
           [Ok accepted; Ok accepted; Ok accepted]).
  - vm_compute. reflexivity.
  - repeat constructor.
Defined.

Lemma headers_keep_the_last_occurrence_witness :
  exists r,
    new_record fresh (ingest' raw_subjects fresh).2 r /\
    NoDup (headers r).*1 /\
    (forall k, dict_get k (headers r) = dict_get k (reverse (items msg_subjects))) /\
    subject r = default (Str "") (lookup_header "subject" (items msg_subjects)).
Proof.
  apply (headers_keep_the_last_occurrence (lib := more_samples) clock
           (envelope_of raw_subjects) fresh _ msg_subjects).
  - reflexivity.
  - vm_compute. reflexivity.
Defined.

Lemma storage_key_injective_witness :
  (12 : Z) = 12 /\ "x.txt" = "x.txt".
Proof.
  apply (storage_key_injective 12 12 "x.txt" "x.txt"). reflexivity.
Defined.

Lemma ingestion_writes_only_under_its_own_keys_witness :
  blobs (handle_DATA (lib := more_samples) clock (envelope_of raw_report) running).2
    !! "mail_storage/attachments/1_report.pdf"
  = blobs running !! "mail_storage/attachments/1_report.pdf".
Proof.
  apply (ingestion_writes_only_under_its_own_keys (lib := more_samples) clock
           (envelope_of raw_report) running "mail_storage/attachments/1_report.pdf").
  intros n Heq. vm_compute in Heq. discriminate.
Defined.

Lemma header_object_stops_the_handler_witness :
  exists w',
    ingest_edge raw_cafe fresh = (Ok rejected, w') /\
    self_emails w' = self_emails fresh ++ [record_cafe] /\
    emails_file w' = Corrupt /\
    stdout w' = stdout fresh ++ [TypeError] /\
    blobs w' = blobs fresh /\
    (forall now2 envelope2,
        (handle_DATA (lib := edge_samples) now2 envelope2 w').1 <> Ok accepted) /\
    start w' = (Raise JSONDecodeError, w').
Proof.
  apply (header_object_stops_the_handler (lib := edge_samples) clock
           (envelope_of raw_cafe) fresh record_cafe fresh);
    [vm_compute; reflexivity | reflexivity | reflexivity].
Defined.

(** ** Restarts *)

Lemma set_self_emails_same w : set_self_emails (self_emails w) w = w.
Proof. by destruct w. Qed.

(** X23.  What an accepted ingestion dumps is what a restart loads: starting
    the handler anew right after an accepted ingestion succeeds and leaves
    handler and storage as they are. *)
Theorem restart_after_ingestion_changes_nothing `{lib : Library} now envelope w w' :
  handle_DATA now envelope w = (Ok accepted, w') ->
  start w' = (Ok tt, w').
Proof.
  intros (r & w1 & _ & (Hs & Hf & _ & Hser) & _)%handle_DATA_new_record.
  unfold start, bind, MailTrapHandler. rewrite Hf.
  by rewrite (map_loaded_dumped _ Hser), set_self_emails_same.
Qed.

(** X24.  A deletion followed by a restart moves the identifier counter
    back: the restarted handler holds the filtered list, so its next
    identifier is at most the number of records stored before the deletion,
    a number that a handler in step with the file had already passed. *)
Theorem restart_after_deletion_moves_the_counter_back id w l e :
  emails_file w = Holds l ->
  self_emails w = map loaded l ->
  find (has_id id) l = Some e ->
  emails_file_fault w = NoFault ->
  let w2 := (start (delete_email id w).2).2 in
  self_emails w2 = map loaded (filter (fun e => email_id e <> id) l) /\
  next_id w2 <= Z.of_nat (length l) /\
  next_id w2 < next_id w.
Proof.
  intros Hfile Hself Hfind Hfault.
  destruct (delete_email_locals_found _ _ _ _ Hfile Hfind Hfault)
    as (w1 & Hdel & Hfile1 & _).
  assert (delete_email id w = (Ok "Email deleted", w1)) as ->.
  { unfold delete_email. by rewrite (bind_eq _ _ _ _ _ Hdel). }
  simpl. unfold start, bind, MailTrapHandler. rewrite Hfile1. simpl.
  split; [done|].
  apply find_has_id_Some in Hfind as [Hin Hid].
  assert (length (filter (fun e => email_id e <> id) l) < length l)%nat as Hlt.
  { apply (length_filter_lt _ _ e); [done|]. intros Hne. done. }
  unfold next_id. simpl. rewrite Hself, !length_map. lia.
Qed.

Lemma restart_after_ingestion_changes_nothing_witness :
  start (ingest raw_one fresh).2 = (Ok tt, (ingest raw_one fresh).2).
Proof.
  apply (restart_after_ingestion_changes_nothing (lib := samples) clock
           (envelope_of raw_one) fresh).
  vm_compute. reflexivity.
Defined.

Lemma restart_after_deletion_moves_the_counter_back_witness :
  let w2 := (start (delete_email 1 running).2).2 in
  self_emails w2
  = map loaded (filter (fun e => email_id e <> 1) [record_report; record_two]) /\
  next_id w2 <= Z.of_nat (length [record_report; record_two]) /\
  next_id w2 < next_id running.
Proof.
  apply (restart_after_deletion_moves_the_counter_back 1 running
           [record_report; record_two] record_report); reflexivity.
Defined.
